(** * video-dl (tuber): the orchestration shell of [main.py]

    A shallow embedding of the pure and state-passing parts of [main.py]:
    link parsing, round-robin partitioning in [run], the progress hook of
    [Downloader] with its filename mapping, the time-left formatter, the
    derived download context, the progress header and the end-of-run
    reconciliation.

    Conventions.
    - A Python [str] is a [string]; truthiness of a [str] is non-emptiness.
    - A Python list is a [list]; an inner two-element list [[url, name]] of
      [Links] is the record [LinkEntry].
    - Code that may raise returns [result]; the exception kinds that occur
      are [ValueError], [KeyError], [ZeroDivisionError], [IndexError] and
      [FileNotFoundError].
    - Global mutable state ([all_links], [output], the cursor of each
      [Downloader]) is passed explicitly.
    - The external engine and the operating system are not modelled: the
      events handed to the progress hook, the content of files and the
      listing of the destination directory are inputs. *)

From Stdlib Require Import List Arith ZArith Lia Bool.
From Stdlib Require Import Ascii String DecimalString Decimal DecimalNat.
From Stdlib Require Import Permutation.
Import ListNotations.

Open Scope list_scope.
Open Scope string_scope.
Open Scope nat_scope.

(* ------------------------------------------------------------------ *)
(** ** Exceptions *)

Inductive exn : Type :=
| ValueError
| KeyError
| ZeroDivisionError
| IndexError
| FileNotFoundError.

Inductive result (A : Type) : Type :=
| Ok (a : A)
| Raise (e : exn).
Arguments Ok {A} a.
Arguments Raise {A} e.

Definition bind {A B} (r : result A) (k : A -> result B) : result B :=
  match r with
  | Ok a => k a
  | Raise e => Raise e
  end.

Notation "x <- r ;; k" := (bind r (fun x => k))
  (at level 61, r at next level, right associativity).

(* ------------------------------------------------------------------ *)
(** ** Python string primitives used by [main.py] *)

Module Py.

Definition LF : ascii := "010"%char.
Definition ESC : ascii := "027"%char.
Definition nl : string := String LF "".

(** [bool(s)] for a [str]. *)
Definition truthy (s : string) : bool :=
  match s with
  | "" => false
  | String _ _ => true
  end.

(** [s[:k]] for [0 <= k]. *)
Fixpoint take (k : nat) (s : string) : string :=
  match k, s with
  | S k', String c s' => String c (take k' s')
  | _, _ => ""
  end.

(** [s[k:]] for [0 <= k]. *)
Fixpoint drop (k : nat) (s : string) : string :=
  match k, s with
  | S k', String _ s' => drop k' s'
  | _, _ => s
  end.

(** [s[k:]] for any integer [k]: a negative start counts from the end
    and is clipped at the beginning of the string. *)
Definition slice_from (k : Z) (s : string) : string :=
  if (k <? 0)%Z
  then drop (Z.to_nat (Z.max 0 (Z.of_nat (length s) + k))) s
  else drop (Z.to_nat k) s.

(** [s.rindex(c)]: the index of the last occurrence of [c];
    [None] stands for the [ValueError] of a missing character. *)
Fixpoint rindex (c : ascii) (s : string) : option nat :=
  match s with
  | "" => None
  | String a s' =>
      match rindex c s' with
      | Some i => Some (S i)
      | None => if Ascii.eqb a c then Some 0 else None
      end
  end.

(** [s.split(c)] for a one-character separator. *)
Fixpoint split (c : ascii) (s : string) : list string :=
  match s with
  | "" => [""]
  | String a s' =>
      if Ascii.eqb a c then "" :: split c s'
      else match split c s' with
           | h :: t => String a h :: t
           | [] => [String a ""]
           end
  end.

(** [s.rsplit(c, maxsplit)] for a one-character separator. *)
Fixpoint rsplit (c : ascii) (maxsplit : nat) (s : string) : list string :=
  match maxsplit with
  | 0 => [s]
  | S k =>
      match rindex c s with
      | None => [s]
      | Some i => (rsplit c k (take i s) ++ [drop (S i) s])%list
      end
  end.

(** [c.join(l)]. *)
Fixpoint join (sep : string) (l : list string) : string :=
  match l with
  | [] => ""
  | [x] => x
  | x :: l' => x ++ sep ++ join sep l'
  end.

(** [''.join(l)]. *)
Definition concat_all (l : list string) : string := String.concat "" l.

(** [s.endswith(suf)] and [s.startswith(pre)]. *)
Definition endswith (s suf : string) : bool :=
  (length suf <=? length s)%nat &&
  String.eqb (drop (length s - length suf) s) suf.

Definition startswith (s pre : string) : bool := String.prefix pre s.

(** [sub in s] for strings. *)
Fixpoint contains (sub s : string) : bool :=
  String.prefix sub s ||
  match s with
  | "" => false
  | String _ s' => contains sub s'
  end.

(** [x in l] for a list of strings. *)
Definition mem (x : string) (l : list string) : bool :=
  existsb (String.eqb x) l.

(** [str(n)] / [f"{n}"] / ["%d" % n] for a natural number. *)
Definition str_of_nat (n : nat) : string :=
  NilEmpty.string_of_uint (Nat.to_uint n).

(** ["%02d" % n]. *)
Definition pad2 (n : nat) : string :=
  if (n <? 10)%nat then "0" ++ str_of_nat n else str_of_nat n.

(** [int(s)] on the strings that occur here: a non-empty run of decimal
    digits; anything else raises [ValueError]. *)
Definition int (s : string) : result nat :=
  match NilZero.uint_of_string s with
  | Some d => Ok (Nat.of_uint d)
  | None => Raise ValueError
  end.

(** [s.ljust(w)]. *)
Fixpoint spaces (n : nat) : string :=
  match n with
  | 0 => ""
  | S n' => String " " (spaces n')
  end.

Definition ljust (w : nat) (s : string) : string :=
  s ++ spaces (w - length s).

(** [l[x::n]] on a list, for [0 <= x] and [1 <= n]: the elements at the
    indices [x], [x+n], [x+2n], ...  [skip] counts the elements still to
    pass over before the next one is taken. *)
Fixpoint every {A} (skip n : nat) (l : list A) : list A :=
  match l with
  | [] => []
  | a :: l' =>
      match skip with
      | 0 => a :: every (n - 1) n l'
      | S k => every k n l'
      end
  end.

Definition slice_step {A} (x n : nat) (l : list A) : list A := every x n l.

(** [str(z)] for an integer. *)
Definition str_of_Z (z : Z) : string :=
  if (z <? 0)%Z then "-" ++ str_of_nat (Z.abs_nat z) else str_of_nat (Z.to_nat z).

(** [l[i] = v] for [0 <= i]: an index out of range raises [IndexError]. *)
Fixpoint list_set {A} (l : list A) (i : nat) (v : A) : result (list A) :=
  match l, i with
  | [], _ => Raise IndexError
  | _ :: l', 0 => Ok (v :: l')
  | a :: l', S i' => l2 <- list_set l' i' v ;; Ok (a :: l2)
  end.

End Py.

(* ------------------------------------------------------------------ *)
(** ** Type aliases and global variables *)

(** One element [[url, name]] of [Links]; [name] is [''] until the
    progress hook resolves it. *)
Record LinkEntry : Type := mkLink {
  link_url : string;
  link_name : string
}.

Definition Links : Type := list LinkEntry.

(** The [settings] dictionary returned by [config]. *)
Record Settings : Type := mkSettings {
  res : string;
  source : string;
  destination : string;
  threads : Z;
  novideo : bool;
  format : string;
  nosub : bool;
  pp : bool
}.

(** The files of the file system that [open(..., 'r')] can read. *)
Definition Files : Type := string -> option string.

(** The names of the entries of the directory [settings['destination']]
    (which ends with the path separator, as [destination + '*.' + ext] and
    [destination + outtmpl] need). *)
Definition Dir : Type := list string.

(* ------------------------------------------------------------------ *)
(** ** Utility functions *)

(** [parse_links]: [fs filepath] is what [file.read()] returns. *)
Definition parse_links (fs : Files) (filepath : string) : result Links :=
  match fs filepath with
  | None => Raise FileNotFoundError
  | Some content => Ok (map (fun x => mkLink x "") (Py.split Py.LF content))
  end.

(** [fnmatch] of a directory entry against the pattern ['*.' + ext], as
    [glob.glob] applies it: an entry with a leading dot is hidden from a
    pattern that starts with a wildcard. *)
Definition matches_star_ext (ext name : string) : bool :=
  negb (Py.startswith name ".") && Py.endswith name ("." ++ ext).

(** [list(map(lambda x: os.path.split(x)[1],
              glob.glob(settings['destination'] + '*.' + ext)))]. *)
Definition glob_names (dir : Dir) (ext : string) : list string :=
  filter (matches_star_ext ext) dir.

(** [print_output]: the text written to the console. *)
Definition print_output (settings : Settings) (dir : Dir) (output : list string) : string :=
  let ext := if novideo settings then "m4a" else "mkv" in
  let downloaded := List.length (glob_names dir ext) in
  String Py.ESC "c"
  ++ ("Completed: " ++ Py.str_of_nat downloaded ++ Py.nl) ++ Py.nl
  ++ Py.concat_all output ++ Py.nl.

(* ------------------------------------------------------------------ *)
(** ** The download context of a [Downloader] *)

Inductive Postprocessor : Type :=
| FFmpegVideoConvertor (preferedformat : string)
| FFmpegSubtitlesConvertor (format : string)
| FFmpegEmbedSubtitle.

(** [self.context]; [logger] and [progress_hooks] are references to the
    logger and to the hook below and carry no data. *)
Record Context : Type := mkContext {
  ctx_format : string;
  ctx_ignoreerrors : bool;
  ctx_outtmpl : string;
  ctx_writesubtitles : bool;
  ctx_writeautomaticsub : bool;
  ctx_merge_output_format : string;
  ctx_sleep_interval : nat;
  ctx_max_sleep_interval : nat;
  ctx_fixup : string;
  ctx_quiet : bool;
  ctx_postprocessors : option (list Postprocessor)
}.

Record Downloader : Type := mkDownloader {
  links : list string;
  pos : nat;
  current : nat;
  total : nat;
  context : Context
}.

Definition resolutions : list (string * nat) :=
  [("144p", 144); ("240p", 240); ("360p", 360); ("480p", 480);
   ("720p", 720); ("1080p", 1080); ("1440p", 1440); ("4k", 2160)].

Fixpoint lookup (k : string) (d : list (string * nat)) : result nat :=
  match d with
  | [] => Raise KeyError
  | (k', v) :: d' => if String.eqb k k' then Ok v else lookup k d'
  end.

Definition _select_format (settings : Settings) : result string :=
  if novideo settings then
    Ok "bestaudio[acodec^=opus][ext=m4a]/bestaudio[acodec^=mp4a][ext=m4a]"
  else
    r <- lookup (res settings) resolutions ;;
    let h := "[height<=" ++ Py.str_of_nat r ++ "]" in
    Ok ("(bestvideo[vcodec^=av01]" ++ h ++ "[fps>30]"
        ++ "/bestvideo[vcodec^=vp9.2]" ++ h ++ "[fps>30]"
        ++ "/bestvideo[vcodec^=vp9]" ++ h ++ "[fps>30]"
        ++ "/bestvideo[vcodec^=avc1]" ++ h ++ "[fps>30]"
        ++ "/bestvideo" ++ h ++ "[fps>30]"
        ++ "/bestvideo[vcodec^=av01]" ++ h
        ++ "/bestvideo[vcodec^=vp9.2]" ++ h
        ++ "/bestvideo[vcodec^=vp9]" ++ h
        ++ "/bestvideo[vcodec^=avc1]" ++ h
        ++ "/bestvideo" ++ h
        ++ ")+(bestaudio[acodec^=opus]/bestaudio)/best" ++ h).

(** [_set_subs(self, no_sub=False)]. *)
Definition _set_subs (settings : Settings) (no_sub : bool) : bool :=
  if no_sub then false
  else if negb (novideo settings) then true else false.

(** [_generate_name]; [rnd] is the value of
    [''.join(random.choices(chars, k=10))]. *)
Definition _generate_name (settings : Settings) (rnd : string) : string :=
  if pp settings then "." ++ rnd ++ ".%(ext)s" else "%(title)s.%(ext)s".

(** [Downloader.__init__(self, links, pos)]: both subtitle entries are
    built by the call [self._set_subs()], with the default [no_sub]. *)
Definition Downloader_init (settings : Settings) (all_links : Links)
    (rnd : string) (links : Links) (pos : nat) : result Downloader :=
  fmt <- _select_format settings ;;
  let ctx :=
    {| ctx_format := fmt;
       ctx_ignoreerrors := true;
       ctx_outtmpl := destination settings ++ _generate_name settings rnd;
       ctx_writesubtitles := _set_subs settings false;
       ctx_writeautomaticsub := _set_subs settings false;
       ctx_merge_output_format := "mp4";
       ctx_sleep_interval := 5;
       ctx_max_sleep_interval := 25;
       ctx_fixup := "detect_or_warn";
       ctx_quiet := false;
       ctx_postprocessors :=
         if negb (novideo settings)
         then Some [FFmpegVideoConvertor (format settings);
                    FFmpegSubtitlesConvertor "srt";
                    FFmpegEmbedSubtitle]
         else None |} in
  Ok {| links := map link_url links;
        pos := pos;
        current := 0;
        total := List.length all_links;
        context := ctx |}.

(* ------------------------------------------------------------------ *)
(** ** The progress hook *)

(** [datetime.timedelta(seconds=n)] for an integer [n]: normalised to days
    and seconds of the day (there are no microseconds, [n] being the
    result of [round]).  Python builds the value only when the days are
    between -999999999 and 999999999 and raises [OverflowError] beyond;
    [timedelta_of_seconds] is the value inside this range, and the
    statements below that leave one day say so ([timedelta_in_range]). *)
Record timedelta : Type := mkTimedelta {
  td_days : Z;
  td_seconds : Z
}.

Definition timedelta_of_seconds (n : Z) : timedelta :=
  {| td_days := (n / 86400)%Z; td_seconds := (n mod 86400)%Z |}.

(** [bool(time)]. *)
Definition timedelta_truthy (t : timedelta) : bool :=
  negb ((td_days t =? 0)%Z && (td_seconds t =? 0)%Z).

(** [str(time)]: ["%d:%02d:%02d"], after ["%d day%s, "] when there are
    days. *)
Definition timedelta_str (t : timedelta) : string :=
  let secs := Z.to_nat (td_seconds t) in
  let mm := (secs / 60)%nat in
  let ss := (secs mod 60)%nat in
  let hh := (mm / 60)%nat in
  let mm := (mm mod 60)%nat in
  let s := Py.str_of_nat hh ++ ":" ++ Py.pad2 mm ++ ":" ++ Py.pad2 ss in
  if (td_days t =? 0)%Z then s
  else Py.str_of_Z (td_days t) ++ " day"
       ++ (if (Z.abs (td_days t) =? 1)%Z then "" else "s") ++ ", " ++ s.

(** [f"{n} unit{'s' if n > 1 else ''} "]. *)
Definition unit_part (n : nat) (unit : string) : string :=
  Py.str_of_nat n ++ " " ++ unit ++ (if (1 <? n)%nat then "s" else "") ++ " ".

Definition _parse_time (time : timedelta) : result string :=
  out <-
    (if timedelta_truthy time then
       match Py.split ":" (timedelta_str time) with
       | [h; m; s] =>
           hours <- Py.int h ;;
           minutes <- Py.int m ;;
           seconds <- Py.int s ;;
           let out := "" in
           let out := if (hours =? 0)%nat then out else out ++ unit_part hours "hour" in
           let out := if (minutes =? 0)%nat then out else out ++ unit_part minutes "minute" in
           let out := if (seconds =? 0)%nat then out else out ++ unit_part seconds "second" in
           Ok out
       | _ => Raise ValueError
       end
     else Ok "") ;;
  Ok (if Py.truthy out then out ++ "left" else "").

(** The short display name of line 194. *)
Definition short_filename (filename : string) : result string :=
  if (length filename <? 25)%nat then Ok filename
  else
    match Py.rindex "." filename with
    | None => Raise ValueError
    | Some i =>
        Ok (Py.take 25 filename ++ "..."
            ++ Py.slice_from (Z.of_nat i - 5) filename)
    end.

(** [_map_filename]: the loop over [all_links], up to its [break].
    [None] when the loop ends without an assignment. *)
Fixpoint assign_first (target name : string) (all_links : Links) : option Links :=
  match all_links with
  | [] => None
  | link :: rest =>
      if Py.truthy (link_name link) then
        option_map (cons link) (assign_first target name rest)
      else if String.eqb (link_url link) target then
        Some (mkLink (link_url link) name :: rest)
      else
        option_map (cons link) (assign_first target name rest)
  end.

Definition set_current (w : Downloader) (c : nat) : Downloader :=
  {| links := links w; pos := pos w; current := c;
     total := total w; context := context w |}.

Definition _map_filename (settings : Settings) (w : Downloader)
    (all_links : Links) (filename : string) : Downloader * Links :=
  let ext := if novideo settings then "m4a" else "mp4" in
  if (current w <? List.length (links w))%nat then
    match nth_error (links w) (current w) with
    | Some target =>
        match assign_first target
                (hd "" (Py.rsplit "." 2 filename) ++ "." ++ ext) all_links with
        | Some all_links' => (set_current w (current w + 1), all_links')
        | None => (w, all_links)
        end
    | None => (w, all_links)
    end
  else (w, all_links).

(** The numbers of a progress event as the hook displays them.  They are
    floating-point values in the source; the event carries their
    renderings: [str(downloaded)], [str(size)], [str(speed)],
    [str(progress)] and whether [progress == 100]. *)
Record Stats : Type := mkStats {
  st_downloaded : string;
  st_size : string;
  st_speed : string;
  st_progress : string;
  st_done : bool
}.

(** A progress event [e]. [ev_filename] is
    [re.sub(settings['destination'], '', e['filename'])], [ev_eta] is
    [round(e.get('eta') or 0)], and [ev_stats] is [Raise ZeroDivisionError]
    when the rounded size is zero. *)
Record Event : Type := mkEvent {
  ev_status : string;
  ev_filename : string;
  ev_eta : Z;
  ev_stats : result Stats
}.

(** The shared state that a hook reads and writes. *)
Record Shared : Type := mkShared {
  all_links : Links;
  output : list string
}.

(** The block that the hook writes into its slot of [output]. *)
Definition progress_block (short eta : string) (st : Stats) : string :=
  Py.ljust 12 short ++ String "009" (String "009" "")
  ++ (if st_done st then "Done" else st_progress st ++ "%") ++ Py.nl
  ++ st_downloaded st ++ " / " ++ st_size st ++ " MB | "
  ++ st_speed st ++ " MB/s" ++ Py.nl
  ++ eta ++ Py.nl ++ Py.nl.

(** [_my_hook]: the worker and the shared state as the call leaves them,
    and how the call ends: with the text that [print_output] writes
    ([None] when the event is ignored), or with an exception.  The values
    displayed are computed before [_map_filename] runs, the slot of
    [output] is written after it. *)
Definition _my_hook (settings : Settings) (dir : Dir) (w : Downloader)
    (sh : Shared) (e : Event) : Downloader * Shared * result (option string) :=
  if String.eqb (ev_status e) "downloading" then
    let filename := ev_filename e in
    match (short <- short_filename filename ;;
           eta <- _parse_time (timedelta_of_seconds (ev_eta e)) ;;
           st <- ev_stats e ;;
           Ok (progress_block short eta st)) with
    | Raise x => (w, sh, Raise x)
    | Ok block =>
        let '(w', links') := _map_filename settings w (all_links sh) filename in
        match Py.list_set (output sh) (pos w) block with
        | Raise x => (w', {| all_links := links'; output := output sh |}, Raise x)
        | Ok output' =>
            (w', {| all_links := links'; output := output' |},
             Ok (Some (print_output settings dir output')))
        end
    end
  else (w, sh, Ok None).

(* ------------------------------------------------------------------ *)
(** ** Main functions *)

(** The loop of [run] that builds the workers: worker [x] gets
    [all_links[x::threads]] and the slot [x] of [output].  [rnd x] is the
    random name drawn by worker [x]. *)
Fixpoint build_workers (settings : Settings) (all_links : Links)
    (rnd : nat -> string) (xs : list nat) (output : list string)
    : result (list Downloader * list string) :=
  match xs with
  | [] => Ok ([], output)
  | x :: xs' =>
      dl <- Downloader_init settings all_links (rnd x)
              (Py.slice_step x (Z.to_nat (threads settings)) all_links) x ;;
      r <- build_workers settings all_links rnd xs' (output ++ [""])%list ;;
      Ok (dl :: fst r, snd r)
  end.

Definition run_workers (settings : Settings) (all_links : Links)
    (rnd : nat -> string) (output : list string)
    : result (list Downloader * list string) :=
  build_workers settings all_links rnd
    (seq 0 (Z.to_nat (threads settings))) output.

(** The partitions handed to the engine by [run]: [self.links] of every
    worker, in worker order. *)
Definition partitions (n : nat) (all_links : Links) : list (list string) :=
  map (fun x => map link_url (Py.slice_step x n all_links)) (seq 0 n).

(** The threads of [run]: a schedule is the sequence of hook calls made by
    the engine, each with the index of the worker that receives it and
    the listing of the destination at that moment.  The state after a call
    is the state that the hook leaves, also when the hook raises.  A
    schedule takes each call whole.  The threads are not synchronised: a
    call writes only the entry of [all_links] that carries the URL at its
    cursor, so when the URLs are distinct no two workers write the same
    entry and the calls of different workers do not interfere; with one
    URL in two partitions two calls can overlap on one entry, and a
    statement that counts writes then holds for distinct URLs only. *)
Record World : Type := mkWorld {
  workers : list Downloader;
  shared : Shared
}.

Record Call : Type := mkCall {
  call_worker : nat;
  call_event : Event;
  call_dir : Dir
}.

Definition hook_step (settings : Settings) (wd : World) (call : Call) : World :=
  match nth_error (workers wd) (call_worker call) with
  | None => wd
  | Some w =>
      let '(w', sh', _) :=
        _my_hook settings (call_dir call) w (shared wd) (call_event call) in
      match Py.list_set (workers wd) (call_worker call) w' with
      | Ok ws => {| workers := ws; shared := sh' |}
      | Raise _ => wd
      end
  end.

Definition run_schedule (settings : Settings) (wd : World) (calls : list Call) : World :=
  fold_left (hook_step settings) calls wd.

(** [run]: the workers are built, then the threads run to their end. *)
Definition run (settings : Settings) (all_links : Links) (rnd : nat -> string)
    (output : list string) (calls : list Call) : result World :=
  r <- run_workers settings all_links rnd output ;;
  Ok (run_schedule settings
        {| workers := fst r;
           shared := {| all_links := all_links; output := snd r |} |}
        calls).

(** What [end] leaves behind: the console text and, when it is written,
    the content of [failed.txt]. *)
Record EndReport : Type := mkEndReport {
  console : string;
  failed_txt : option string
}.

Definition end_ (settings : Settings) (dir : Dir) (all_links : Links) : EndReport :=
  let ext := if novideo settings then "m4a" else "mp4" in
  let downloaded := glob_names dir ext in
  let failed := filter (fun x => negb (Py.mem (link_name x) downloaded)) all_links in
  let n := Py.str_of_nat (List.length all_links) in
  let counts :=
    (Py.nl ++ "Completed: " ++ Py.str_of_nat (List.length downloaded) ++ "/" ++ n) ++ Py.nl
    ++ ("Failed: " ++ Py.str_of_nat (List.length failed) ++ "/" ++ n) ++ Py.nl in
  if (List.length downloaded =? List.length all_links)%nat then
    {| console := String Py.ESC "c" ++ "Download Complete!" ++ Py.nl ++ counts;
       failed_txt := None |}
  else
    {| console := String Py.ESC "c"
                  ++ (Py.nl ++ "Download Failed!" ++ Py.nl
                      ++ "Check 'failed.txt' for failed links.") ++ Py.nl
                  ++ counts;
       failed_txt :=
         Some (Py.concat_all (map (fun link => link_url link ++ Py.nl) failed)) |}.


(* ------------------------------------------------------------------ *)
(** ** Definitions that follow the specification's words

    They are compared below with the definitions taken from the code. *)

(** "One entry per non-empty line, filename unset." *)
Definition spec_parse_links (content : string) : Links :=
  map (fun x => mkLink x "") (filter Py.truthy (Py.split Py.LF content)).

(** "[H hour(s) M minute(s) S second(s) left], omitting zero-valued units,
    empty string if no ETA." *)
Definition spec_unit (n : nat) (name : string) : string :=
  if n =? 0 then ""
  else Py.str_of_nat n ++ " " ++ name ++ (if n =? 1 then "" else "s") ++ " ".

Definition spec_time_left (eta : nat) : string :=
  if eta =? 0 then ""
  else spec_unit (eta / 3600) "hour"
       ++ spec_unit ((eta / 60) mod 60) "minute"
       ++ spec_unit (eta mod 60) "second"
       ++ "left".

(* ------------------------------------------------------------------ *)
(** ** Notions used in the statements *)

(** The number of occurrences of a character in a string. *)
Fixpoint count_char (c : ascii) (s : string) : nat :=
  match s with
  | "" => 0
  | String a s' => (if Ascii.eqb a c then 1 else 0) + count_char c s'
  end.

(** A field of ["%d:%02d:%02d"] holds no colon and reads back as its
    number. *)
Definition time_field_ok (n : nat) : bool :=
  let reads (s : string) :=
    match Py.int s with
    | Ok m => m =? n
    | Raise _ => false
    end in
  (count_char ":" (Py.str_of_nat n) =? 0) && (count_char ":" (Py.pad2 n) =? 0)
  && reads (Py.str_of_nat n) && reads (Py.pad2 n).

(** How one entry of the link list may differ before and after calls of
    the hook: it is the same entry, or its name was empty and is now set,
    for the same URL. *)
Definition entry_step (e e' : LinkEntry) : Prop :=
  e' = e
  \/ (link_url e' = link_url e
      /\ Py.truthy (link_name e) = false /\ Py.truthy (link_name e') = true).

(** The console text of [end]: the two count lines. *)
Definition count_lines (completed failed total : nat) : string :=
  Py.nl ++ "Completed: " ++ Py.str_of_nat completed ++ "/" ++ Py.str_of_nat total ++ Py.nl
  ++ "Failed: " ++ Py.str_of_nat failed ++ "/" ++ Py.str_of_nat total ++ Py.nl.

(** The console text before the count lines. *)
Definition complete_message : string :=
  String Py.ESC "c" ++ "Download Complete!" ++ Py.nl.

Definition failed_message : string :=
  String Py.ESC "c" ++ Py.nl ++ "Download Failed!" ++ Py.nl
  ++ "Check 'failed.txt' for failed links." ++ Py.nl.

(* ------------------------------------------------------------------ *)
(** ** Concrete inputs used by the examples below *)

Definition settings_ex : Settings :=
  mkSettings "720p" "links.txt" "out/" 2 false "mp4" false false.

(** Two links for one worker, and a progress event of the engine for the
    video stream of the first one. *)
Definition two_links : Links := [mkLink "u1" ""; mkLink "u2" ""].

Definition event_ex : Event :=
  {| ev_status := "downloading";
     ev_filename := "v.f137.mp4";
     ev_eta := 10;
     ev_stats := Ok {| st_downloaded := "1.0"; st_size := "2.0";
                       st_speed := "0.5"; st_progress := "50.0";
                       st_done := false |} |}.

Definition settings_one : Settings :=
  mkSettings "720p" "links.txt" "out/" 1 false "mp4" false false.

Definition call_ex : Call :=
  {| call_worker := 0; call_event := event_ex; call_dir := [] |}.


(* ------------------------------------------------------------------ *)
(** ** The logger *)

(** [CustomLogger]: [log_file] is the content of [log.txt]. *)
Record CustomLogger : Type := mkLogger {
  log_file : string
}.

(** [CustomLogger.__init__]: the file is opened for appending and
    truncated. *)
Definition CustomLogger_init : CustomLogger := {| log_file := "" |}.

Definition debug (lg : CustomLogger) (msg : string) : CustomLogger :=
  if negb (Py.contains "ETA" msg)
  then {| log_file := log_file lg ++ msg ++ Py.nl |}
  else lg.

Definition warning (lg : CustomLogger) (msg : string) : CustomLogger :=
  {| log_file := log_file lg ++ msg ++ Py.nl |}.

Definition error (lg : CustomLogger) (msg : string) : CustomLogger :=
  {| log_file := log_file lg ++ msg ++ Py.nl |}.

(** A call of the engine on the logger. *)
Inductive LogCall : Type :=
| LogDebug (msg : string)
| LogWarning (msg : string)
| LogError (msg : string).

Definition log_call (lg : CustomLogger) (c : LogCall) : CustomLogger :=
  match c with
  | LogDebug msg => debug lg msg
  | LogWarning msg => warning lg msg
  | LogError msg => error lg msg
  end.

(* ------------------------------------------------------------------ *)
(** ** Command line and configuration file *)

(** The [argparse.Namespace] of [main]: an option that was not given is
    [None], a flag that was not given is [false]. *)
Record Options : Type := mkOptions {
  o_start : bool;
  o_config : bool;
  o_res : option string;
  o_source : option string;
  o_destination : option string;
  o_threads : option Z;
  o_format : option string;
  o_pp : bool;
  o_nosub : bool;
  o_novideo : bool
}.

(** The six entries of [config.json]. *)
Record ConfigFile : Type := mkConfigFile {
  c_res : string;
  c_source : string;
  c_destination : string;
  c_threads : Z;
  c_novideo : bool;
  c_format : string
}.

(** The choices that [main] gives to [argparse] for [--res]. *)
Definition res_choices : list string :=
  ["144p"; "240p"; "360p"; "480p"; "720p"; "1080p"; "1440p"; "4k"].

(** [a or b] for an optional string, an optional integer. *)
Definition or_str (a : option string) (b : string) : string :=
  match a with
  | Some s => if Py.truthy s then s else b
  | None => b
  end.

Definition or_int (a : option Z) (b : Z) : Z :=
  match a with
  | Some z => if (z =? 0)%Z then b else z
  | None => b
  end.

(** The entries of [config] after the six assignments of [config()]. *)
Definition merge_config (file : ConfigFile) (options : Options) : ConfigFile :=
  {| c_res := or_str (o_res options) (c_res file);
     c_source := or_str (o_source options) (c_source file);
     c_destination := or_str (o_destination options) (c_destination file);
     c_threads := or_int (o_threads options) (c_threads file);
     c_novideo := o_novideo options || c_novideo file;
     c_format := or_str (o_format options) (c_format file) |}.

(** [config(options)]: the content of [config.json] after the call, and
    the value returned. *)
Definition config (file : ConfigFile) (options : Options)
    : ConfigFile * option Settings :=
  let c := merge_config file options in
  if o_config options then (c, None)
  else (file,
        Some {| res := c_res c; source := c_source c;
                destination := c_destination c; threads := c_threads c;
                novideo := c_novideo c; format := c_format c;
                nosub := o_nosub options; pp := o_pp options |}).

(** How [main] ends.  [TypeErrorNone] is the subscript of the [None] that
    [config] returns under [--config]. *)
Inductive crash : Type :=
| Uncaught (e : exn)
| TypeErrorNone.

Inductive MainOutcome : Type :=
| Downloaded (file : ConfigFile) (wd : World) (report : EndReport)
| Crashed (file : ConfigFile) (c : crash)
| ConfigUpdated (file : ConfigFile) (printed : string)
| Invalid (file : ConfigFile) (printed : string).

Definition invalid_both : string :=
  "Error: Invalid Command." ++ Py.nl
  ++ "Can't start and config at the same time" ++ Py.nl
  ++ "Type tuber -h for help." ++ Py.nl.

Definition invalid_neither : string :=
  "Error: Invalid Command." ++ Py.nl
  ++ "Type 'tuber --start' to start downloading" ++ Py.nl
  ++ "Type tuber -h for help." ++ Py.nl.

(** [main]: [file] is [config.json], [fs] the readable files, [calls] the
    hook calls that the engine makes and [dir] the listing of the
    destination when [end] runs.  [output] starts empty.  A fatal error
    of the engine ([YoutubeDLError]) is not among the runs modelled. *)
Definition main (options : Options) (file : ConfigFile) (fs : Files)
    (rnd : nat -> string) (calls : list Call) (dir : Dir) : MainOutcome :=
  if o_start options && negb (o_config options) then
    match config file options with
    | (file', Some settings) =>
        match parse_links fs (source settings) with
        | Raise e => Crashed file' (Uncaught e)
        | Ok links0 =>
            match run settings links0 rnd [] calls with
            | Raise e => Crashed file' (Uncaught e)
            | Ok wd => Downloaded file' wd (end_ settings dir (all_links (shared wd)))
            end
        end
    | (file', None) => Crashed file' TypeErrorNone
    end
  else if negb (o_start options) && o_config options then
    ConfigUpdated (fst (config file options))
      ("Config updated successfully!" ++ Py.nl)
  else if o_start options && o_config options then
    Invalid file invalid_both
  else
    Invalid file invalid_neither.

(* ------------------------------------------------------------------ *)
(** ** Further notions used in the statements *)

(** The number of links that have a name. *)
Definition resolved_count (L : Links) : nat :=
  List.length (filter (fun e => Py.truthy (link_name e)) L).

(** The sum of the cursors of the workers. *)
Definition cursor_sum (ws : list Downloader) : nat :=
  list_sum (map current ws).

(** The facts that every hook call of a schedule keeps. *)
Definition kept (wd wd' : World) : Prop :=
  map links (workers wd') = map links (workers wd)
  /\ map pos (workers wd') = map pos (workers wd)
  /\ List.length (output (shared wd')) = List.length (output (shared wd))
  /\ (Forall (fun w => current w <= List.length (links w)) (workers wd) ->
      Forall (fun w => current w <= List.length (links w)) (workers wd'))
  /\ resolved_count (all_links (shared wd')) + cursor_sum (workers wd)
     = resolved_count (all_links (shared wd)) + cursor_sum (workers wd').

(** The seconds for which [datetime.timedelta(seconds=n)] is built: the
    days are between -999999999 and 999999999. *)
Definition timedelta_in_range (n : Z) : Prop :=
  (-999999999 <= n / 86400 <= 999999999)%Z.

(** The settings with another value of [nosub]. *)
Definition set_nosub (b : bool) (st : Settings) : Settings :=
  {| res := res st; source := source st; destination := destination st;
     threads := threads st; novideo := novideo st; format := format st;
     nosub := b; pp := pp st |}.

(** The name that [_map_filename] records for a file name. *)
Definition recorded_name (st : Settings) (filename : string) : string :=
  hd "" (Py.rsplit "." 2 filename) ++ "." ++ (if novideo st then "m4a" else "mp4").

(** Options with no option and no flag given. *)
Definition no_options : Options :=
  {| o_start := false; o_config := false; o_res := None; o_source := None;
     o_destination := None; o_threads := None; o_format := None;
     o_pp := false; o_nosub := false; o_novideo := false |}.

Definition set_start (b : bool) (o : Options) : Options :=
  {| o_start := b; o_config := o_config o; o_res := o_res o;
     o_source := o_source o; o_destination := o_destination o;
     o_threads := o_threads o; o_format := o_format o; o_pp := o_pp o;
     o_nosub := o_nosub o; o_novideo := o_novideo o |}.

Definition config_ex : ConfigFile :=
  {| c_res := "720p"; c_source := "links.txt"; c_destination := "out/";
     c_threads := 4; c_novideo := false; c_format := "mp4" |}.

(** The content of [config.json] when [main] has ended. *)
Definition outcome_file (o : MainOutcome) : ConfigFile :=
  match o with
  | Downloaded file _ _ => file
  | Crashed file _ => file
  | ConfigUpdated file _ => file
  | Invalid file _ => file
  end.

(** The settings that [config] returns from a file when no option is
    given. *)
Definition settings_of_file (file : ConfigFile) (nosub pp : bool) : Settings :=
  {| res := c_res file; source := c_source file;
     destination := c_destination file; threads := c_threads file;
     novideo := c_novideo file; format := c_format file;
     nosub := nosub; pp := pp |}.

(** The line that a logger call writes, and whether it writes it. *)
Definition log_line (c : LogCall) : string :=
  match c with
  | LogDebug msg => msg ++ Py.nl
  | LogWarning msg => msg ++ Py.nl
  | LogError msg => msg ++ Py.nl
  end.

Definition log_written (c : LogCall) : bool :=
  match c with
  | LogDebug msg => negb (Py.contains "ETA" msg)
  | LogWarning _ => true
  | LogError _ => true
  end.
(* ================================================================== *)
(** * Properties *)

Example split_ex : Py.split ":" "1:02:03" = ["1"; "02"; "03"].
Proof. reflexivity. Qed.

Example rsplit_ex : Py.rsplit "." 2 "a.b.c.d" = ["a.b"; "c"; "d"].
Proof. reflexivity. Qed.

Example slice_step_ex : Py.slice_step 1 3 [0; 1; 2; 3; 4; 5; 6; 7] = [1; 4; 7].
Proof. reflexivity. Qed.

Example int_ex :
  Py.int "1 day, 0" = Raise ValueError /\ Py.int "07" = Ok 7 /\ Py.int "" = Raise ValueError.
Proof. repeat split; reflexivity. Qed.

Example select_format_ex :
  _select_format settings_ex
  = Ok ("(bestvideo[vcodec^=av01][height<=720][fps>30]"
        ++ "/bestvideo[vcodec^=vp9.2][height<=720][fps>30]"
        ++ "/bestvideo[vcodec^=vp9][height<=720][fps>30]"
        ++ "/bestvideo[vcodec^=avc1][height<=720][fps>30]"
        ++ "/bestvideo[height<=720][fps>30]"
        ++ "/bestvideo[vcodec^=av01][height<=720]"
        ++ "/bestvideo[vcodec^=vp9.2][height<=720]"
        ++ "/bestvideo[vcodec^=vp9][height<=720]"
        ++ "/bestvideo[vcodec^=avc1][height<=720]"
        ++ "/bestvideo[height<=720]"
        ++ ")+(bestaudio[acodec^=opus]/bestaudio)/best[height<=720]").
Proof. reflexivity. Qed.

Example partitions_ex :
  partitions 3 (map (fun u => mkLink u "") ["a"; "b"; "c"; "d"; "e"; "f"; "g"])
  = [["a"; "d"; "g"]; ["b"; "e"]; ["c"; "f"]].
Proof. reflexivity. Qed.

Example slice_from_ex :
  Py.slice_from (-2) "abcdef" = "ef" /\ Py.slice_from 2 "abcdef" = "cdef"
  /\ Py.slice_from (-9) "abc" = "abc".
Proof. repeat split; reflexivity. Qed.

(* ------------------------------------------------------------------ *)
(** ** Round-robin partitioning *)

Section Partition.

Context {A : Type}.
Variable n : nat.
Hypothesis n_pos : 1 <= n.

(** Element [k] of [l[x::n]] is element [x + k*n] of [l]. *)
Lemma nth_error_every (l : list A) :
  forall x k, nth_error (Py.every x n l) k = nth_error l (x + k * n).
Proof.
  induction l as [|a l IH]; intros x k; simpl.
  - now rewrite !nth_error_nil.
  - destruct x as [|x]; simpl.
    + destruct k as [|k]; simpl; [reflexivity|].
      rewrite IH. destruct n as [|m]; [lia|]. simpl.
      f_equal. lia.
    + apply IH.
Qed.

Lemma In_every (l : list A) x u :
  In u (Py.every x n l) -> exists k, nth_error l (x + k * n) = Some u.
Proof.
  intros H. apply In_nth_error in H. destruct H as [k Hk].
  exists k. now rewrite <- nth_error_every.
Qed.

End Partition.

Lemma partitions_cons (n : nat) (a : LinkEntry) (L : Links) :
  partitions (S n) (a :: L) =
  (link_url a :: map link_url (Py.slice_step n (S n) L))
    :: map (fun x => map link_url (Py.slice_step x (S n) L)) (seq 0 n).
Proof.
  unfold partitions, Py.slice_step.
  change (seq 0 (S n)) with (0 :: seq 1 n).
  rewrite <- seq_shift, map_cons, map_map. simpl.
  now rewrite Nat.sub_0_r.
Qed.

Lemma partitions_last (n : nat) (L : Links) :
  partitions (S n) L =
  (map (fun x => map link_url (Py.slice_step x (S n) L)) (seq 0 n)
     ++ [map link_url (Py.slice_step n (S n) L)])%list.
Proof.
  unfold partitions. now rewrite seq_S, map_app.
Qed.

(** The partitions, put end to end, are a rearrangement of the URLs. *)
Lemma partitions_Permutation (n : nat) (L : Links) :
  1 <= n -> Permutation (List.concat (partitions n L)) (map link_url L).
Proof.
  intros Hn. destruct n as [|n]; [lia|]. clear Hn.
  induction L as [|a L IH].
  - unfold partitions, Py.slice_step. simpl.
    assert (H : forall xs : list nat,
               List.concat (map (fun _ : nat => @nil string) xs) = []).
    { induction xs; simpl; auto. }
    rewrite (H (seq 1 n)). constructor.
  - rewrite partitions_cons. simpl. constructor.
    rewrite partitions_last, concat_app in IH. simpl in IH.
    rewrite app_nil_r in IH.
    eapply Permutation_trans; [apply Permutation_app_comm | exact IH].
Qed.

Lemma nth_error_partitions (n : nat) (L : Links) x p :
  nth_error (partitions n L) x = Some p ->
  x < n /\ p = map link_url (Py.slice_step x n L).
Proof.
  unfold partitions. intros H.
  assert (Hx : x < n).
  { assert (H' : nth_error (map (fun x => map link_url (Py.slice_step x n L)) (seq 0 n)) x <> None)
      by congruence.
    apply nth_error_Some in H'. now rewrite length_map, length_seq in H'. }
  split; [exact Hx|].
  rewrite nth_error_map, nth_error_seq in H.
  destruct (x <? n) eqn:E; [|apply Nat.ltb_ge in E; lia].
  simpl in H. now inversion H.
Qed.

Lemma every_map {A B} (f : A -> B) (n : nat) (l : list A) :
  forall x, map f (Py.every x n l) = Py.every x n (map f l).
Proof.
  induction l as [|a l IH]; intros x; simpl; [reflexivity|].
  destruct x; simpl; now rewrite IH.
Qed.

Lemma Downloader_init_ok (st : Settings) (L : Links) rnd ls p fmt :
  _select_format st = Ok fmt ->
  exists w, Downloader_init st L rnd ls p = Ok w
            /\ links w = map link_url ls /\ pos w = p /\ current w = 0.
Proof.
  intros H. unfold Downloader_init. rewrite H. simpl.
  eexists. split; [reflexivity|]. simpl. auto.
Qed.

Lemma build_workers_ok (st : Settings) (L : Links) rnd fmt :
  _select_format st = Ok fmt ->
  forall xs out,
  exists ws,
    build_workers st L rnd xs out = Ok (ws, (out ++ repeat "" (List.length xs))%list)
    /\ map links ws
       = map (fun x => map link_url (Py.slice_step x (Z.to_nat (threads st)) L)) xs
    /\ map pos ws = xs.
Proof.
  intros Hfmt. induction xs as [|x xs IH]; intros out; simpl.
  - exists []. now rewrite app_nil_r.
  - destruct (Downloader_init_ok st L (rnd x)
                (Py.slice_step x (Z.to_nat (threads st)) L) x fmt Hfmt)
      as (w & Hw & Hl & Hp & _).
    destruct (IH (out ++ [""])%list) as (ws & Hws & Hls & Hps).
    exists (w :: ws). rewrite Hw, Hws. simpl.
    rewrite <- app_assoc. simpl. repeat split; congruence.
Qed.

(** The workers that [run] builds carry the partitions. *)
Lemma run_workers_partitions (st : Settings) (L : Links) rnd out fmt :
  _select_format st = Ok fmt ->
  exists ws out',
    run_workers st L rnd out = Ok (ws, out')
    /\ map links ws = partitions (Z.to_nat (threads st)) L
    /\ map pos ws = seq 0 (Z.to_nat (threads st)).
Proof.
  intros Hfmt. unfold run_workers, partitions.
  destruct (build_workers_ok st L rnd fmt Hfmt
              (seq 0 (Z.to_nat (threads st))) out) as (ws & H1 & H2 & H3).
  eauto.
Qed.

(** C1. For every link list and every thread count [N >= 1], the slices
    [L[x::N]] for [x] in [0..N-1] are [N] partitions; link [i] is element
    [i / N] of partition [i mod N]; the partitions, put together, are a
    rearrangement of the URLs of the list (so their union is the set of
    URLs); when the URLs are distinct, two different partitions share no
    URL; and these partitions are the [links] of the workers that [run]
    builds, worker [x] holding slot [x]. *)
Theorem run_round_robin_partition
    (st : Settings) (L : Links) (rnd : nat -> string) (out : list string) :
  (1 <= threads st)%Z ->
  let N := Z.to_nat (threads st) in
  let parts := partitions N L in
  List.length parts = N
  /\ (forall i u, nth_error (map link_url L) i = Some u ->
        exists p, nth_error parts (i mod N) = Some p
                  /\ nth_error p (i / N) = Some u)
  /\ Permutation (List.concat parts) (map link_url L)
  /\ (NoDup (map link_url L) ->
      forall x y px py u,
        x <> y -> nth_error parts x = Some px -> nth_error parts y = Some py ->
        In u px -> ~ In u py)
  /\ (forall fmt, _select_format st = Ok fmt ->
      exists ws out',
        run_workers st L rnd out = Ok (ws, out')
        /\ map links ws = parts /\ map pos ws = seq 0 N).
Proof.
  intros HN N parts.
  assert (N_pos : 1 <= N) by (unfold N; lia).
  assert (Hlen : List.length parts = N).
  { unfold parts, partitions. now rewrite length_map, length_seq. }
  assert (Hparts : forall x p, nth_error parts x = Some p ->
            x < N /\ p = Py.every x N (map link_url L)).
  { intros x p Hx. apply nth_error_partitions in Hx. destruct Hx as [Hlt ->].
    split; [exact Hlt|]. apply every_map. }
  repeat split; try assumption.
  - intros i u Hi.
    assert (Hm : i mod N < N) by (apply Nat.mod_upper_bound; lia).
    destruct (nth_error parts (i mod N)) as [p|] eqn:Hp.
    + exists p. split; [reflexivity|].
      destruct (Hparts _ _ Hp) as [_ ->].
      rewrite (nth_error_every N N_pos), <- Hi. f_equal.
      pose proof (Nat.div_mod_eq i N). lia.
    + apply nth_error_None in Hp. lia.
  - now apply partitions_Permutation.
  - intros Hnd x y px py u Hxy Hx Hy Hux Huy.
    destruct (Hparts _ _ Hx) as [Hxn Ex]. destruct (Hparts _ _ Hy) as [Hyn Ey].
    rewrite Ex in Hux. rewrite Ey in Huy.
    apply (In_every N N_pos) in Hux. destruct Hux as [k Hk].
    apply (In_every N N_pos) in Huy. destruct Huy as [k' Hk'].
    assert (E : x + k * N = y + k' * N).
    { apply (proj1 (NoDup_nth_error _) Hnd).
      - apply nth_error_Some. congruence.
      - congruence. }
    apply Hxy.
    rewrite <- (Nat.mod_small x N Hxn), <- (Nat.mod_small y N Hyn).
    rewrite <- (Nat.Div0.mod_add x k N), <- (Nat.Div0.mod_add y k' N).
    now rewrite E.
  - intros fmt Hfmt. now apply (run_workers_partitions st L rnd out fmt).
Qed.

Lemma run_round_robin_partition_witness :
  Permutation
    (List.concat (partitions 2 [mkLink "u0" ""; mkLink "u1" ""; mkLink "u2" ""]))
    ["u0"; "u1"; "u2"].
Proof.
  exact (proj1 (proj2 (proj2
    (run_round_robin_partition settings_ex
       [mkLink "u0" ""; mkLink "u1" ""; mkLink "u2" ""] (fun _ => "") []
       ltac:(simpl; lia))))).
Defined.

(* ------------------------------------------------------------------ *)
(** ** Parsing the link file *)

Lemma split_not_nil (c : ascii) (s : string) : Py.split c s <> [].
Proof.
  destruct s as [|a s]; simpl; [discriminate|].
  destruct (Ascii.eqb a c); [discriminate|].
  destruct (Py.split c s); discriminate.
Qed.

Lemma length_split (c : ascii) (s : string) :
  List.length (Py.split c s) = S (count_char c s).
Proof.
  induction s as [|a s IH]; simpl; [reflexivity|].
  destruct (Ascii.eqb a c); simpl.
  - now rewrite IH.
  - destruct (Py.split c s) eqn:E; simpl in *; congruence.
Qed.

Lemma join_cons2 (sep x y : string) (l : list string) :
  Py.join sep (x :: y :: l) = x ++ sep ++ Py.join sep (y :: l).
Proof. reflexivity. Qed.

(** [c.join(s.split(c)) == s]. *)
Lemma join_split (c : ascii) (s : string) :
  Py.join (String c "") (Py.split c s) = s.
Proof.
  induction s as [|a s IH]; simpl; [reflexivity|].
  destruct (Ascii.eqb a c) eqn:E.
  - apply Ascii.eqb_eq in E. subst a.
    destruct (Py.split c s) as [|h t] eqn:Es; [now apply split_not_nil in Es|].
    rewrite join_cons2, IH. reflexivity.
  - destruct (Py.split c s) as [|h t] eqn:Es; [now apply split_not_nil in Es|].
    destruct t as [|h' t].
    + simpl in *. now rewrite IH.
    + rewrite join_cons2. rewrite join_cons2 in IH.
      change (String a h ++ String c "" ++ Py.join (String c "") (h' :: t))
        with (String a (h ++ String c "" ++ Py.join (String c "") (h' :: t))).
      now rewrite IH.
Qed.

(** C2, as the claim states it, fails: the empty piece after a final
    newline becomes an entry of its own. *)
Lemma parse_links_keeps_empty_lines :
  ~ (forall (fs : Files) (filepath content : string),
        fs filepath = Some content ->
        parse_links fs filepath = Ok (spec_parse_links content)).
Proof.
  intros H.
  specialize (H (fun _ => Some ("a" ++ Py.nl)) "links.txt" ("a" ++ Py.nl) eq_refl).
  discriminate H.
Qed.

(** C2, amended. [parse_links] produces one entry per piece of the file
    content between newline characters, empty pieces included: as many
    entries as there are newlines, plus one.  Every entry has the empty
    name, and the URLs joined by newlines give the content back. *)
Theorem parse_links_entries (fs : Files) (filepath content : string) :
  fs filepath = Some content ->
  exists l,
    parse_links fs filepath = Ok l
    /\ List.length l = S (count_char Py.LF content)
    /\ Forall (fun e => link_name e = "") l
    /\ map link_url l = Py.split Py.LF content
    /\ Py.join Py.nl (map link_url l) = content.
Proof.
  intros H. unfold parse_links. rewrite H.
  eexists. split; [reflexivity|].
  assert (E : map link_url (map (fun x => mkLink x "") (Py.split Py.LF content))
              = Py.split Py.LF content).
  { rewrite map_map. simpl. apply map_id. }
  repeat split.
  - now rewrite length_map, length_split.
  - apply Forall_forall. intros e He. apply in_map_iff in He.
    destruct He as (x & <- & _). reflexivity.
  - exact E.
  - rewrite E. apply join_split.
Qed.

Lemma parse_links_entries_witness :
  exists l,
    parse_links (fun _ => Some ("a" ++ Py.nl ++ Py.nl ++ "b")) "links.txt" = Ok l
    /\ List.length l = 3.
Proof.
  destruct (parse_links_entries (fun _ => Some ("a" ++ Py.nl ++ Py.nl ++ "b"))
              "links.txt" _ eq_refl) as (l & H1 & H2 & _).
  exists l. split; [exact H1 | exact H2].
Defined.

(* ------------------------------------------------------------------ *)
(** ** Time-left formatting *)

Lemma split_no_sep (c : ascii) (a : string) :
  count_char c a = 0 -> Py.split c a = [a].
Proof.
  induction a as [|x a IH]; simpl; [reflexivity|].
  destruct (Ascii.eqb x c); [discriminate|].
  intros H. now rewrite IH.
Qed.

Lemma split_app_sep (c : ascii) (a rest : string) :
  count_char c a = 0 ->
  Py.split c (a ++ String c rest) = a :: Py.split c rest.
Proof.
  induction a as [|x a IH]; simpl.
  - intros _. now rewrite Ascii.eqb_refl.
  - destruct (Ascii.eqb x c); [discriminate|].
    intros H. now rewrite IH.
Qed.

Lemma time_fields_ok (n : nat) : n < 60 -> time_field_ok n = true.
Proof.
  intros H.
  assert (All : forallb time_field_ok (seq 0 60) = true) by (vm_compute; reflexivity).
  rewrite forallb_forall in All. apply All, in_seq. lia.
Qed.

Lemma time_field_facts (n : nat) :
  n < 60 ->
  count_char ":" (Py.str_of_nat n) = 0 /\ count_char ":" (Py.pad2 n) = 0
  /\ Py.int (Py.str_of_nat n) = Ok n /\ Py.int (Py.pad2 n) = Ok n.
Proof.
  intros H. apply time_fields_ok in H. unfold time_field_ok in H.
  repeat (apply andb_prop in H; destruct H as [H ?]).
  repeat match goal with
         | E : (_ =? _) = true |- _ => apply Nat.eqb_eq in E
         end.
  repeat split; try assumption.
  - destruct (Py.int (Py.str_of_nat n)); [|discriminate].
    f_equal. now apply Nat.eqb_eq.
  - destruct (Py.int (Py.pad2 n)); [|discriminate].
    f_equal. now apply Nat.eqb_eq.
Qed.

Lemma truthy_app (a b : string) :
  Py.truthy (a ++ b) = Py.truthy a || Py.truthy b.
Proof. now destruct a. Qed.

Lemma append_empty_r (a : string) : a ++ "" = a.
Proof. induction a; simpl; congruence. Qed.

Lemma append_assoc (a b c : string) : (a ++ b) ++ c = a ++ b ++ c.
Proof. induction a; simpl; congruence. Qed.

(** The unit of the code and the unit of the specification agree. *)
Lemma unit_part_spec (out : string) (n : nat) (name : string) :
  (if n =? 0 then out else out ++ unit_part n name) = out ++ spec_unit n name.
Proof.
  unfold spec_unit, unit_part.
  destruct n as [|[|n]]; simpl; now rewrite ?append_empty_r.
Qed.

Lemma unit_part_spec_first (n : nat) (name : string) :
  (if n =? 0 then "" else unit_part n name) = spec_unit n name.
Proof. exact (unit_part_spec "" n name). Qed.

Lemma truthy_spec_unit (n : nat) (name : string) :
  Py.truthy (spec_unit n name) = negb (n =? 0).
Proof.
  unfold spec_unit. destruct (n =? 0); [reflexivity|].
  rewrite !truthy_app. simpl. now rewrite !orb_true_r.
Qed.

Lemma timedelta_below_one_day (eta : Z) :
  (0 <= eta < 86400)%Z ->
  timedelta_of_seconds eta = {| td_days := 0; td_seconds := eta |}.
Proof.
  intros H. unfold timedelta_of_seconds.
  now rewrite Z.div_small, Z.mod_small.
Qed.

#[local] Opaque Nat.div Nat.modulo.

(** Below one day the code formats the time as the specification says. *)
Lemma parse_time_below_one_day (eta : Z) :
  (0 <= eta < 86400)%Z ->
  _parse_time (timedelta_of_seconds eta) = Ok (spec_time_left (Z.to_nat eta)).
Proof.
  intros H. rewrite (timedelta_below_one_day eta H).
  unfold _parse_time, timedelta_truthy, timedelta_str, spec_time_left. simpl.
  set (n := Z.to_nat eta).
  assert (Hn : (Z.of_nat n < 86400)%Z) by (unfold n; lia).
  replace (eta =? 0)%Z with (n =? 0)
    by (unfold n; destruct (Z.eqb_spec eta 0), (Nat.eqb_spec (Z.to_nat eta) 0); lia || reflexivity).
  destruct (Nat.eqb_spec n 0) as [E|E]; [reflexivity|].
  simpl.
  assert (Hh : n / 60 / 60 < 60).
  { rewrite Nat.Div0.div_div. apply Nat.Div0.div_lt_upper_bound. lia. }
  assert (Hm : (n / 60) mod 60 < 60) by (apply Nat.mod_upper_bound; lia).
  assert (Hs : n mod 60 < 60) by (apply Nat.mod_upper_bound; lia).
  destruct (time_field_facts _ Hh) as (Ch & _ & Ih & _).
  destruct (time_field_facts _ Hm) as (_ & Cm & _ & Im).
  destruct (time_field_facts _ Hs) as (_ & Cs & _ & Is).
  change (Py.str_of_nat (n / 60 / 60) ++ ":" ++ Py.pad2 ((n / 60) mod 60)
          ++ ":" ++ Py.pad2 (n mod 60))
    with (Py.str_of_nat (n / 60 / 60)
          ++ String ":" (Py.pad2 ((n / 60) mod 60) ++ String ":" (Py.pad2 (n mod 60)))).
  rewrite (split_app_sep _ _ _ Ch), (split_app_sep _ _ _ Cm), (split_no_sep _ _ Cs).
  rewrite Ih, Im, Is. cbn [bind].
  rewrite !unit_part_spec.
  rewrite unit_part_spec_first.
  rewrite (Nat.Div0.div_div n 60 60). change (60 * 60) with 3600.
  set (h := spec_unit (n / 3600) "hour").
  set (m := spec_unit ((n / 60) mod 60) "minute").
  set (s := spec_unit (n mod 60) "second").
  rewrite append_assoc.
  assert (T : Py.truthy (h ++ m ++ s) = true).
  { rewrite !truthy_app. unfold h, m, s. rewrite !truthy_spec_unit.
    destruct (Nat.eqb_spec (n / 3600) 0) as [E1|]; [|reflexivity].
    destruct (Nat.eqb_spec ((n / 60) mod 60) 0) as [E2|]; [|reflexivity].
    destruct (Nat.eqb_spec (n mod 60) 0) as [E3|]; [|reflexivity].
    exfalso. apply E.
    pose proof (Nat.div_mod_eq n 60). pose proof (Nat.div_mod_eq (n / 60) 60).
    rewrite Nat.Div0.div_div in H1. change (60 * 60) with 3600 in H1. lia. }
  rewrite T. now rewrite !append_assoc.
Qed.

#[local] Transparent Nat.div Nat.modulo.

Example parse_time_examples :
  _parse_time (timedelta_of_seconds 0) = Ok ""
  /\ _parse_time (timedelta_of_seconds 90) = Ok "1 minute 30 seconds left"
  /\ _parse_time (timedelta_of_seconds 3661) = Ok "1 hour 1 minute 1 second left"
  /\ _parse_time (timedelta_of_seconds 86399)
     = Ok "23 hours 59 minutes 59 seconds left".
Proof. repeat split; vm_compute; reflexivity. Qed.

(** C8. At an ETA of one day the code does not format the time: the text
    of the [timedelta] starts with the days, whose first field is not a
    number, and [_parse_time] raises [ValueError]. *)
Theorem parse_time_one_day_raises :
  timedelta_str (timedelta_of_seconds 86400) = "1 day, 0:00:00"
  /\ Py.split ":" "1 day, 0:00:00" = ["1 day, 0"; "00"; "00"]
  /\ _parse_time (timedelta_of_seconds 86400) = Raise ValueError.
Proof. repeat split; vm_compute; reflexivity. Qed.

(* ------------------------------------------------------------------ *)
(** ** The short display name *)

Lemma rindex_none (c : ascii) (s : string) :
  count_char c s = 0 -> Py.rindex c s = None.
Proof.
  induction s as [|a s IH]; simpl; [reflexivity|].
  destruct (Ascii.eqb a c); [discriminate|].
  intros H. now rewrite IH.
Qed.

(** The last [c] of [pre ++ c ++ ext] is the one shown, when [ext] has
    none. *)
Lemma rindex_last (c : ascii) (pre ext : string) :
  count_char c ext = 0 ->
  Py.rindex c (pre ++ String c ext) = Some (String.length pre).
Proof.
  intros H. induction pre as [|a pre IH]; simpl.
  - now rewrite (rindex_none _ _ H), Ascii.eqb_refl.
  - now rewrite IH.
Qed.

Lemma drop_app (a b : string) : Py.drop (String.length a) (a ++ b) = b.
Proof. induction a; simpl; [now destruct b | assumption]. Qed.

Lemma length_append (a b : string) :
  String.length (a ++ b) = String.length a + String.length b.
Proof. induction a; simpl; congruence. Qed.

Lemma take_drop (k : nat) (s : string) : Py.take k s ++ Py.drop k s = s.
Proof.
  revert s. induction k as [|k IH]; intros [|a s]; simpl; try reflexivity.
  now rewrite IH.
Qed.

Lemma length_take (k : nat) (s : string) :
  k <= String.length s -> String.length (Py.take k s) = k.
Proof.
  revert s. induction k as [|k IH]; intros [|a s]; simpl; intros H;
    try reflexivity; try lia.
  rewrite IH; lia.
Qed.

(** C7, as the claim states it, fails on names it does not expect: a long
    name without a dot has no short name ([rindex] raises), and when the
    last dot is among the first five characters the slice starts from the
    end of the name and cuts the extension. *)
Lemma short_filename_unexpected_names :
  short_filename "aaaaaaaaaaaaaaaaaaaaaaaaa" = Raise ValueError
  /\ short_filename "a.bcdefghijklmnopqrstuvwxyz"
     = Ok "a.bcdefghijklmnopqrstuvwx...wxyz".
Proof. split; reflexivity. Qed.

(** C7, amended. A name shorter than 25 characters is displayed as it is.
    A longer name that has a dot, with at least five characters before its
    last dot, is displayed as its first 25 characters, then [...], then
    the five characters before the last dot, the dot and the extension. *)
Theorem short_filename_spec (filename : string) :
  (String.length filename < 25 -> short_filename filename = Ok filename)
  /\ (forall pre five ext : string,
        filename = pre ++ five ++ "." ++ ext ->
        String.length five = 5 ->
        count_char "." ext = 0 ->
        25 <= String.length filename ->
        exists first rest,
          filename = first ++ rest /\ String.length first = 25
          /\ short_filename filename
             = Ok (first ++ "..." ++ five ++ "." ++ ext)).
Proof.
  split.
  - intros H. unfold short_filename.
    destruct (Nat.ltb_spec (String.length filename) 25); [reflexivity | lia].
  - intros pre five ext E H5 Hext Hlen.
    exists (Py.take 25 filename), (Py.drop 25 filename).
    split; [now rewrite take_drop|].
    split; [now apply length_take|].
    unfold short_filename.
    destruct (Nat.ltb_spec (String.length filename) 25); [lia|].
    assert (R : Py.rindex "." filename = Some (String.length pre + 5)).
    { rewrite E, <- append_assoc.
      change ("." ++ ext) with (String "." ext).
      rewrite (rindex_last _ _ _ Hext), length_append. now rewrite H5. }
    rewrite R. do 3 f_equal.
    unfold Py.slice_from.
    destruct (Z.ltb_spec (Z.of_nat (String.length pre + 5) - 5) 0); [lia|].
    replace (Z.to_nat (Z.of_nat (String.length pre + 5) - 5))
      with (String.length pre) by lia.
    rewrite E. apply drop_app.
Qed.

Lemma short_filename_spec_witness :
  exists first rest,
    "A long title of some video.f137.mp4" = first ++ rest
    /\ String.length first = 25
    /\ short_filename "A long title of some video.f137.mp4"
       = Ok (first ++ "..." ++ ".f137" ++ "." ++ "mp4").
Proof.
  apply (proj2 (short_filename_spec "A long title of some video.f137.mp4")
           "A long title of some video" ".f137" "mp4");
    [reflexivity | reflexivity | reflexivity | simpl; lia].
Defined.

(* ------------------------------------------------------------------ *)
(** ** End-of-run reconciliation *)

Lemma mem_In (x : string) (l : list string) : Py.mem x l = true <-> In x l.
Proof.
  unfold Py.mem. rewrite existsb_exists. split.
  - intros (y & Hy & E). apply String.eqb_eq in E. now subst.
  - intros H. exists x. split; [exact H | apply String.eqb_refl].
Qed.

Lemma filter_none {A} (f : A -> bool) (l : list A) :
  (forall x, In x l -> f x = false) -> filter f l = [].
Proof.
  induction l as [|a l IH]; simpl; intros H; [reflexivity|].
  rewrite (H a (or_introl eq_refl)). apply IH. intros x Hx. apply H. now right.
Qed.

(** The two outcomes of [end]: which message is printed depends on the
    numbers of files and links; the count lines follow in both cases. *)
Lemma end_cases (st : Settings) (dir : Dir) (L : Links) :
  let ext := if novideo st then "m4a" else "mp4" in
  let downloaded := glob_names dir ext in
  let failed := filter (fun x => negb (Py.mem (link_name x) downloaded)) L in
  let counts := count_lines (List.length downloaded) (List.length failed) (List.length L) in
  (List.length downloaded = List.length L ->
   end_ st dir L = {| console := complete_message ++ counts; failed_txt := None |})
  /\ (List.length downloaded <> List.length L ->
      end_ st dir L =
      {| console := failed_message ++ counts;
         failed_txt :=
           Some (Py.concat_all (map (fun link => link_url link ++ Py.nl) failed)) |}).
Proof.
  intros ext downloaded failed counts. unfold end_.
  fold ext. fold downloaded. fold failed.
  split; intros H.
  - apply Nat.eqb_eq in H. rewrite H. unfold complete_message, counts, count_lines.
    now rewrite !append_assoc.
  - apply Nat.eqb_neq in H. rewrite H. unfold failed_message, counts, count_lines.
    now rewrite !append_assoc.
Qed.

(** C5. With exactly [a.mp4] and [b.mp4] in the destination, in video
    mode, and three links of which two carry these two names and the third
    another name or none, [end] writes the URL of the third link and a
    newline to the failure file and prints [Completed: 2/3] and
    [Failed: 1/3]. *)
Theorem end_two_of_three
    (st : Settings) (dir : Dir) (l1 l2 : Links) (u3 f3 : string) :
  novideo st = false ->
  Permutation dir ["a.mp4"; "b.mp4"] ->
  Permutation (map link_name (l1 ++ l2)%list) ["a.mp4"; "b.mp4"] ->
  f3 <> "a.mp4" -> f3 <> "b.mp4" ->
  List.length (l1 ++ mkLink u3 f3 :: l2)%list = 3
  /\ end_ st dir (l1 ++ mkLink u3 f3 :: l2)%list =
     {| console :=
          failed_message ++ Py.nl ++ "Completed: 2/3" ++ Py.nl
          ++ "Failed: 1/3" ++ Py.nl;
        failed_txt := Some (u3 ++ Py.nl) |}.
Proof.
  intros Hv Hdir Hnames Ha Hb.
  assert (Hlen : List.length (l1 ++ mkLink u3 f3 :: l2)%list = 3).
  { apply Permutation_length in Hnames.
    rewrite length_map, length_app in Hnames.
    rewrite length_app. simpl in *. lia. }
  split; [exact Hlen|].
  assert (Hglob : glob_names dir "mp4" = dir).
  { apply Permutation_sym, Permutation_length_2_inv in Hdir.
    destruct Hdir as [-> | ->]; reflexivity. }
  assert (Hin : forall x, In x dir <-> x = "a.mp4" \/ x = "b.mp4").
  { intros x. split.
    - intros H. apply (Permutation_in _ Hdir) in H. simpl in H. intuition auto.
    - intros H. apply (Permutation_in _ (Permutation_sym Hdir)). simpl. intuition auto. }
  assert (Hothers : forall e, In e (l1 ++ l2)%list ->
            negb (Py.mem (link_name e) dir) = false).
  { intros e He. apply negb_false_iff, mem_In, Hin.
    assert (H : In (link_name e) ["a.mp4"; "b.mp4"]).
    { apply (Permutation_in _ Hnames). now apply in_map. }
    simpl in H. intuition auto. }
  assert (Hthird : negb (Py.mem f3 dir) = true).
  { apply negb_true_iff. destruct (Py.mem f3 dir) eqn:E; [|reflexivity].
    apply mem_In, Hin in E. destruct E; contradiction. }
  assert (Hfailed :
    filter (fun x => negb (Py.mem (link_name x) dir)) (l1 ++ mkLink u3 f3 :: l2)%list
    = [mkLink u3 f3]).
  { rewrite filter_app. simpl. rewrite Hthird.
    rewrite !filter_none; [reflexivity | |];
      intros e He; apply Hothers, in_or_app; auto. }
  destruct (end_cases st dir (l1 ++ mkLink u3 f3 :: l2)%list) as [_ Hcase].
  rewrite Hv, Hglob in Hcase. rewrite Hcase.
  - rewrite Hfailed, Hlen.
    rewrite (Permutation_length Hdir). reflexivity.
  - rewrite Hlen, (Permutation_length Hdir). simpl. lia.
Qed.

Lemma end_two_of_three_witness :
  end_ settings_ex ["b.mp4"; "a.mp4"]
    ([mkLink "u1" "a.mp4"] ++ mkLink "u3" "" :: [mkLink "u2" "b.mp4"])%list
  = {| console :=
         failed_message ++ Py.nl ++ "Completed: 2/3" ++ Py.nl
         ++ "Failed: 1/3" ++ Py.nl;
       failed_txt := Some ("u3" ++ Py.nl) |}.
Proof.
  apply (end_two_of_three settings_ex ["b.mp4"; "a.mp4"]
           [mkLink "u1" "a.mp4"] [mkLink "u2" "b.mp4"] "u3" "").
  - reflexivity.
  - apply perm_swap.
  - apply Permutation_refl.
  - discriminate.
  - discriminate.
Defined.

Lemma prefix_app (a b : string) : String.prefix a (a ++ b) = true.
Proof.
  induction a as [|c a IH]; simpl; [now destruct b|].
  destruct (ascii_dec c c); [exact IH | contradiction].
Qed.

Lemma contains_here (sub b : string) : Py.contains sub (sub ++ b) = true.
Proof.
  assert (U : forall s, String.prefix sub s = true -> Py.contains sub s = true).
  { intros s H. destruct s; cbn -[String.prefix]; now rewrite H. }
  apply U, prefix_app.
Qed.

Lemma contains_app_r (sub a b : string) :
  Py.contains sub b = true -> Py.contains sub (a ++ b) = true.
Proof.
  intros H. induction a as [|c a IH]; simpl; [exact H|].
  rewrite IH. apply orb_true_r.
Qed.

Lemma count_lines_contains (d f n : nat) :
  Py.contains "Completed: " (count_lines d f n) = true
  /\ Py.contains "Failed: " (count_lines d f n) = true.
Proof.
  unfold count_lines. split.
  - apply contains_app_r, contains_here.
  - do 6 apply contains_app_r. apply contains_here.
Qed.

(** C6, as the claim states it, fails: with one link and its file in the
    destination the count lines are printed after the success message. *)
Lemma end_prints_counts_on_success :
  ~ (forall (st : Settings) (dir : Dir) (L : Links),
        List.length (glob_names dir (if novideo st then "m4a" else "mp4"))
        = List.length L ->
        Py.contains "Completed: " (console (end_ st dir L)) = false).
Proof.
  intros H.
  specialize (H settings_ex ["a.mp4"] [mkLink "u" "a.mp4"] eq_refl).
  vm_compute in H. discriminate H.
Qed.

(** C6, amended. When the number of matching files in the destination
    equals the number of links, [end] prints the success message and
    writes no failure file; otherwise it prints the failure message and
    writes the failure file.  In both cases the two count lines follow the
    message. *)
Theorem end_message_and_counts (st : Settings) (dir : Dir) (L : Links) :
  let ext := if novideo st then "m4a" else "mp4" in
  let downloaded := glob_names dir ext in
  let failed := filter (fun x => negb (Py.mem (link_name x) downloaded)) L in
  let counts := count_lines (List.length downloaded) (List.length failed) (List.length L) in
  (List.length downloaded = List.length L ->
   console (end_ st dir L) = complete_message ++ counts
   /\ failed_txt (end_ st dir L) = None)
  /\ (List.length downloaded <> List.length L ->
      console (end_ st dir L) = failed_message ++ counts
      /\ failed_txt (end_ st dir L)
         = Some (Py.concat_all (map (fun link => link_url link ++ Py.nl) failed)))
  /\ Py.contains "Completed: " (console (end_ st dir L)) = true
  /\ Py.contains "Failed: " (console (end_ st dir L)) = true.
Proof.
  intros ext downloaded failed counts.
  destruct (end_cases st dir L) as [Hc Hf].
  fold ext in Hc, Hf. fold downloaded in Hc, Hf. fold failed in Hc, Hf.
  fold counts in Hc, Hf.
  destruct (count_lines_contains (List.length downloaded) (List.length failed)
              (List.length L)) as [C1 C2].
  fold counts in C1, C2.
  split; [|split].
  - intros H. now rewrite (Hc H).
  - intros H. now rewrite (Hf H).
  - destruct (Nat.eq_dec (List.length downloaded) (List.length L)) as [E|E].
    + rewrite (Hc E). cbn [console]. split; now apply contains_app_r.
    + rewrite (Hf E). cbn [console]. split; now apply contains_app_r.
Qed.

Lemma end_message_and_counts_witness :
  console (end_ settings_ex ["a.mp4"] [mkLink "u" "a.mp4"])
  = complete_message ++ count_lines 1 0 1
  /\ failed_txt (end_ settings_ex ["a.mp4"] [mkLink "u" "a.mp4"]) = None.
Proof.
  exact (proj1 (end_message_and_counts settings_ex ["a.mp4"] [mkLink "u" "a.mp4"])
           eq_refl).
Defined.

(* ------------------------------------------------------------------ *)
(** ** Filename mapping *)

Lemma entry_step_refl (e : LinkEntry) : entry_step e e.
Proof. now left. Qed.

Lemma entry_step_trans (a b c : LinkEntry) :
  entry_step a b -> entry_step b c -> entry_step a c.
Proof.
  intros [-> | (U1 & F1 & T1)] [-> | (U2 & F2 & T2)].
  - now left.
  - right. auto.
  - right. auto.
  - congruence.
Qed.

Lemma Forall2_entry_step_refl (L : Links) : Forall2 entry_step L L.
Proof. induction L; constructor; auto using entry_step_refl. Qed.

Lemma Forall2_entry_step_trans (L1 L2 L3 : Links) :
  Forall2 entry_step L1 L2 -> Forall2 entry_step L2 L3 ->
  Forall2 entry_step L1 L3.
Proof.
  intros H. revert L3. induction H; intros L3 H3; inversion H3; subst;
    constructor; eauto using entry_step_trans.
Qed.

(** What the loop of [_map_filename] does when it assigns: the first
    entry without a name whose URL is the target gets the name. *)
Lemma assign_first_Some (target name : string) (L L' : Links) :
  assign_first target name L = Some L' ->
  exists (l1 l2 : Links) (e : LinkEntry),
    L = (l1 ++ e :: l2)%list
    /\ L' = (l1 ++ mkLink target name :: l2)%list
    /\ link_url e = target /\ Py.truthy (link_name e) = false
    /\ Forall (fun x => Py.truthy (link_name x) = true \/ link_url x <> target) l1.
Proof.
  revert L'. induction L as [|a L IH]; intros L' H; simpl in H; [discriminate|].
  destruct (Py.truthy (link_name a)) eqn:T.
  - destruct (assign_first target name L) as [r|]; [|discriminate].
    inversion H; subst. destruct (IH r eq_refl) as (l1 & l2 & e & -> & -> & ?).
    exists (a :: l1), l2, e. repeat split; try tauto.
    constructor; [auto | tauto].
  - destruct (String.eqb_spec (link_url a) target) as [E|E].
    + inversion H; subst. exists [], L, a. repeat split; auto.
    + destruct (assign_first target name L) as [r|]; [|discriminate].
      inversion H; subst. destruct (IH r eq_refl) as (l1 & l2 & e & -> & -> & ?).
      exists (a :: l1), l2, e. repeat split; try tauto.
      constructor; [auto | tauto].
Qed.

Lemma assign_first_step (target name : string) (L L' : Links) :
  Py.truthy name = true ->
  assign_first target name L = Some L' -> Forall2 entry_step L L'.
Proof.
  intros T H. apply assign_first_Some in H.
  destruct H as (l1 & l2 & e & -> & -> & U & F & _).
  apply Forall2_app; [apply Forall2_entry_step_refl|].
  constructor; [|apply Forall2_entry_step_refl].
  right. simpl. auto.
Qed.

Lemma truthy_mapped_name (filename ext : string) :
  Py.truthy (hd "" (Py.rsplit "." 2 filename) ++ "." ++ ext) = true.
Proof. rewrite truthy_app. apply orb_true_r. Qed.

(** One call of [_map_filename]: every entry is kept or gets its first
    name. *)
Lemma map_filename_step (st : Settings) (w : Downloader) (L : Links) (filename : string) :
  Forall2 entry_step L (snd (_map_filename st w L filename)).
Proof.
  unfold _map_filename.
  destruct (current w <? List.length (links w)); [|apply Forall2_entry_step_refl].
  destruct (nth_error (links w) (current w)) as [target|];
    [|apply Forall2_entry_step_refl].
  destruct (assign_first target _ L) as [L'|] eqn:E;
    [|apply Forall2_entry_step_refl].
  simpl. eapply assign_first_step; [|exact E]. apply truthy_mapped_name.
Qed.

Lemma my_hook_step (st : Settings) (dir : Dir) (w : Downloader) (sh : Shared)
    (e : Event) :
  Forall2 entry_step (all_links sh)
    (all_links (snd (fst (_my_hook st dir w sh e)))).
Proof.
  unfold _my_hook.
  destruct (String.eqb (ev_status e) "downloading");
    [|apply Forall2_entry_step_refl].
  destruct (short <- short_filename (ev_filename e) ;; _);
    [|apply Forall2_entry_step_refl].
  pose proof (map_filename_step st w (all_links sh) (ev_filename e)) as S.
  destruct (_map_filename st w (all_links sh) (ev_filename e)) as [w1 L1].
  destruct (Py.list_set _ _ _); exact S.
Qed.

Lemma hook_step_links (st : Settings) (wd : World) (call : Call) :
  Forall2 entry_step (all_links (shared wd))
    (all_links (shared (hook_step st wd call))).
Proof.
  unfold hook_step.
  destruct (nth_error (workers wd) (call_worker call)) as [w|];
    [|apply Forall2_entry_step_refl].
  pose proof (my_hook_step st (call_dir call) w (shared wd) (call_event call)) as S.
  destruct (_my_hook st (call_dir call) w (shared wd) (call_event call))
    as [[w' sh'] r].
  destruct (Py.list_set (workers wd) (call_worker call) w');
    [exact S | apply Forall2_entry_step_refl].
Qed.

Lemma run_schedule_links (st : Settings) (calls : list Call) :
  forall wd,
    Forall2 entry_step (all_links (shared wd))
      (all_links (shared (run_schedule st wd calls))).
Proof.
  unfold run_schedule.
  induction calls as [|c calls IH]; intros wd; simpl.
  - apply Forall2_entry_step_refl.
  - eapply Forall2_entry_step_trans; [apply hook_step_links | apply IH].
Qed.

Lemma Forall2_nth_error_l {A B} (R : A -> B -> Prop) (l : list A) (l' : list B) :
  Forall2 R l l' ->
  forall i a, nth_error l i = Some a ->
  exists b, nth_error l' i = Some b /\ R a b.
Proof.
  induction 1 as [|x y l l' Hxy _ IH]; intros [|i] a Ha; simpl in *;
    try discriminate.
  - inversion Ha; subst. eauto.
  - eauto.
Qed.

Lemma entry_step_urls (L L' : Links) :
  Forall2 entry_step L L' -> map link_url L' = map link_url L.
Proof.
  induction 1 as [|x y l l' [-> | (U & _)] _ IH]; simpl; congruence.
Qed.

(** What [Forall2 entry_step] says entry by entry. *)
Lemma entry_step_facts (L L' : Links) :
  Forall2 entry_step L L' ->
  map link_url L' = map link_url L
  /\ (forall i e, nth_error L i = Some e -> Py.truthy (link_name e) = true ->
        nth_error L' i = Some e)
  /\ (forall i e e', nth_error L i = Some e -> nth_error L' i = Some e' ->
        e' <> e ->
        Py.truthy (link_name e) = false /\ Py.truthy (link_name e') = true).
Proof.
  intros H. split; [now apply entry_step_urls|]. split.
  - intros i e Hi T.
    destruct (Forall2_nth_error_l _ _ _ H i e Hi) as (e' & Hi' & [-> | (_ & F & _)]);
      [exact Hi' | congruence].
  - intros i e e' Hi Hi' Hne.
    destruct (Forall2_nth_error_l _ _ _ H i e Hi) as (e2 & Hi2 & S).
    assert (e2 = e') by congruence. subst e2.
    destruct S as [-> | (_ & F & T)]; [contradiction | auto].
Qed.

(** C9. Along every schedule of hook calls, by any workers, from any
    state: the link list keeps its entries and their URLs; an entry whose
    name is set keeps it; and an entry that differs at the end had no name
    at the start and has one at the end.  So it is for the link list that
    [run] leaves, and for a single call of [_map_filename], whatever the
    worker and the file name. *)
Theorem link_name_set_at_most_once (st : Settings) (calls : list Call) :
  (forall wd : World,
      let L := all_links (shared wd) in
      let L' := all_links (shared (run_schedule st wd calls)) in
      map link_url L' = map link_url L
      /\ (forall i e, nth_error L i = Some e -> Py.truthy (link_name e) = true ->
            nth_error L' i = Some e)
      /\ (forall i e e', nth_error L i = Some e -> nth_error L' i = Some e' ->
            e' <> e ->
            Py.truthy (link_name e) = false /\ Py.truthy (link_name e') = true))
  /\ (forall (L : Links) rnd out wd',
        run st L rnd out calls = Ok wd' ->
        List.length (all_links (shared wd')) = List.length L
        /\ map link_url (all_links (shared wd')) = map link_url L
        /\ forall i e, nth_error L i = Some e -> Py.truthy (link_name e) = true ->
             nth_error (all_links (shared wd')) i = Some e)
  /\ (forall (w : Downloader) (L0 : Links) (filename : string),
        let L1 := snd (_map_filename st w L0 filename) in
        List.length L1 = List.length L0
        /\ forall i e, nth_error L0 i = Some e ->
             Py.truthy (link_name e) = true -> nth_error L1 i = Some e).
Proof.
  split; [|split].
  - intros wd L L'. apply entry_step_facts, run_schedule_links.
  - intros L rnd out wd' H. unfold run in H.
    destruct (run_workers st L rnd out) as [r|]; [|discriminate].
    cbn [bind] in H. inversion H; subst wd'. clear H.
    match goal with
    | |- context [run_schedule st ?w calls] =>
        destruct (entry_step_facts _ _ (run_schedule_links st calls w)) as (U & K & _)
    end.
    cbn [shared all_links] in U, K.
    split; [|split; [exact U | exact K]].
    rewrite <- (length_map link_url), U. apply length_map.
  - intros w L0 filename L1.
    destruct (entry_step_facts L0 L1 (map_filename_step st w L0 filename))
      as (U & K & _).
    split; [|exact K].
    rewrite <- (length_map link_url L1), U. apply length_map.
Qed.

(** Whether the loop of [_map_filename] assigns does not depend on the
    name that it assigns. *)
Lemma assign_first_any_name (target name1 name2 : string) (L : Links) :
  assign_first target name1 L = None <-> assign_first target name2 L = None.
Proof.
  induction L as [|a L IH]; simpl; [tauto|].
  destruct (Py.truthy (link_name a)).
  - destruct (assign_first target name1 L), (assign_first target name2 L);
      simpl; split; intros H; try discriminate; try reflexivity;
      exfalso; destruct IH as [I1 I2]; (now discriminate I1) || (now discriminate I2).
  - destruct (String.eqb (link_url a) target); [split; discriminate|].
    destruct (assign_first target name1 L), (assign_first target name2 L);
      simpl; split; intros H; try discriminate; try reflexivity;
      exfalso; destruct IH as [I1 I2]; (now discriminate I1) || (now discriminate I2).
Qed.

Lemma map_filename_cursor_any_name (st : Settings) (w : Downloader) (L : Links)
    (f1 f2 : string) :
  current (fst (_map_filename st w L f1)) = current (fst (_map_filename st w L f2)).
Proof.
  unfold _map_filename.
  destruct (current w <? List.length (links w)); [|reflexivity].
  destruct (nth_error (links w) (current w)) as [target|]; [|reflexivity].
  set (ext := if novideo st then "m4a" else "mp4").
  pose proof (assign_first_any_name target
                (hd "" (Py.rsplit "." 2 f1) ++ "." ++ ext)
                (hd "" (Py.rsplit "." 2 f2) ++ "." ++ ext) L) as H.
  destruct (assign_first target (hd "" (Py.rsplit "." 2 f1) ++ "." ++ ext) L),
           (assign_first target (hd "" (Py.rsplit "." 2 f2) ++ "." ++ ext) L);
    try reflexivity; exfalso; destruct H as [H1 H2];
    (now discriminate H1) || (now discriminate H2).
Qed.

(** C3. The code at two progress events for the same file, in a run with
    one worker and the links [u1], [u2]: after the first event [u1] has
    the name and the cursor is 1; after the second event, for the same
    file, [u2] has the same name and the cursor is 2.  In general the
    cursor of [_map_filename] moves the same way whatever the file name
    is. *)
Theorem map_filename_advances_on_same_file :
  (exists wd1 wd2,
      run settings_one two_links (fun _ => "") [] [call_ex] = Ok wd1
      /\ run settings_one two_links (fun _ => "") [] [call_ex; call_ex] = Ok wd2
      /\ map links (workers wd1) = [["u1"; "u2"]]
      /\ map current (workers wd1) = [1]
      /\ all_links (shared wd1) = [mkLink "u1" "v.mp4"; mkLink "u2" ""]
      /\ map current (workers wd2) = [2]
      /\ all_links (shared wd2) = [mkLink "u1" "v.mp4"; mkLink "u2" "v.mp4"])
  /\ (forall st w L f1 f2,
        current (fst (_map_filename st w L f1))
        = current (fst (_map_filename st w L f2))).
Proof.
  split; [|apply map_filename_cursor_any_name].
  eexists. eexists.
  split; [vm_compute; reflexivity|].
  split; [vm_compute; reflexivity|].
  repeat split.
Qed.

(* ------------------------------------------------------------------ *)
(** ** Subtitle flags *)

Lemma set_subs_value (st : Settings) (no_sub : bool) :
  _set_subs st no_sub = negb no_sub && negb (novideo st).
Proof. unfold _set_subs. now destruct no_sub, (novideo st). Qed.

(** Whatever [nosub] is, the subtitle entries of the context only follow
    [novideo]. *)
Lemma Downloader_init_subs (st : Settings) (L ls : Links) (rnd : string)
    (k : nat) (w : Downloader) :
  Downloader_init st L rnd ls k = Ok w ->
  ctx_writesubtitles (context w) = negb (novideo st)
  /\ ctx_writeautomaticsub (context w) = negb (novideo st).
Proof.
  unfold Downloader_init. destruct (_select_format st); [|discriminate].
  cbn [bind]. intros H. inversion H. simpl.
  unfold _set_subs. now destruct (novideo st).
Qed.

(** C4. The code in video mode with the subtitle-disable flag set: both
    subtitle entries of the context are true, because [__init__] calls
    [_set_subs] without the flag; [_set_subs] given the flag answers
    false. *)
Theorem subtitles_on_despite_nosub
    (src dst fmt rnd : string) (n : Z) (p : bool) (L ls : Links) (k : nat) :
  let st := mkSettings "720p" src dst n false fmt true p in
  nosub st = true /\ novideo st = false
  /\ (exists w,
        Downloader_init st L rnd ls k = Ok w
        /\ ctx_writesubtitles (context w) = true
        /\ ctx_writeautomaticsub (context w) = true)
  /\ _set_subs st (nosub st) = false.
Proof.
  intros st. repeat split.
  eexists. split; [reflexivity|]. split; reflexivity.
Qed.

(* ------------------------------------------------------------------ *)
(** ** The progress header and the extension it counts *)

Lemma endswith_app (a b : string) : Py.endswith (a ++ b) b = true.
Proof.
  unfold Py.endswith. rewrite length_append.
  replace (String.length a + String.length b - String.length b)
    with (String.length a) by lia.
  rewrite drop_app, String.eqb_refl.
  apply andb_true_iff. split; [apply Nat.leb_le; lia | reflexivity].
Qed.

(** A name that ends in [.mp4] does not match [*.mkv]. *)
Lemma mp4_not_counted_as_mkv (name : string) :
  Py.endswith name ".mp4" = true -> matches_star_ext "mkv" name = false.
Proof.
  unfold matches_star_ext, Py.endswith. simpl String.length.
  intros H. apply andb_true_iff in H. destruct H as [Hl He].
  apply String.eqb_eq in He. rewrite Hl, He. simpl.
  apply andb_false_r.
Qed.

Lemma filter_filter_weaker {A} (f g : A -> bool) (l : list A) :
  (forall x, f x = true -> g x = true) ->
  filter f (filter g l) = filter f l.
Proof.
  intros H. induction l as [|a l IH]; simpl; [reflexivity|].
  destruct (g a) eqn:G; simpl.
  - now rewrite IH.
  - destruct (f a) eqn:F; [|exact IH].
    apply H in F. congruence.
Qed.

(** [end] reads the destination only through the entries that match its
    pattern. *)
Lemma end_reads_matching (st : Settings) (dir : Dir) (L : Links) :
  end_ st dir L
  = end_ st (filter (matches_star_ext (if novideo st then "m4a" else "mp4")) dir) L.
Proof.
  unfold end_, glob_names. now rewrite filter_filter_weaker.
Qed.

Lemma print_output_reads_matching (st : Settings) (dir : Dir) (out : list string)
    (keep : string -> bool) :
  (forall n, matches_star_ext (if novideo st then "m4a" else "mkv") n = true ->
             keep n = true) ->
  print_output st dir out = print_output st (filter keep dir) out.
Proof.
  intros H. unfold print_output, glob_names. now rewrite filter_filter_weaker.
Qed.

(** The names that [_map_filename] sets in video mode end in [.mp4]. *)
Lemma map_filename_sets_mp4 (st : Settings) (w : Downloader) (L : Links)
    (filename : string) :
  novideo st = false ->
  Forall2 (fun e e' => e' = e \/ Py.endswith (link_name e') ".mp4" = true)
    L (snd (_map_filename st w L filename)).
Proof.
  intros Hv.
  assert (R : forall l : Links,
            Forall2 (fun e e' : LinkEntry =>
                       e' = e \/ Py.endswith (link_name e') ".mp4" = true) l l).
  { induction l; constructor; auto. }
  unfold _map_filename. rewrite Hv.
  destruct (current w <? List.length (links w)); [|apply R].
  destruct (nth_error (links w) (current w)) as [target|]; [|apply R].
  destruct (assign_first target _ L) as [L'|] eqn:E; [|apply R].
  apply assign_first_Some in E.
  destruct E as (l1 & l2 & e & -> & -> & _).
  simpl. apply Forall2_app; [apply R|].
  constructor; [|apply R].
  right. simpl. apply (endswith_app _ ".mp4").
Qed.

(** C10. In video mode: the header of [print_output] shows the number of
    entries of the destination that match [*.mkv], and [end] reports as
    completed the number of entries that match [*.mp4]; so the header is
    the same whether or not the destination holds files whose names end
    in [.mp4], a file that the engine writes as [.mp4] never adds to its
    count, and over a destination of [.mp4] files it shows 0; [end] reads
    only the [*.mp4] entries; the names set by [_map_filename] end in
    [.mp4]; and the context asks the engine to merge into [mp4]. *)
Theorem header_counts_mkv_others_mp4 (st : Settings) :
  novideo st = false ->
  (forall dir out,
      print_output st dir out
      = String Py.ESC "c" ++ "Completed: "
        ++ Py.str_of_nat (List.length (filter (matches_star_ext "mkv") dir))
        ++ Py.nl ++ Py.nl ++ Py.concat_all out ++ Py.nl)
  /\ (forall dir L,
        exists failed,
          console (end_ st dir L)
          = complete_message
            ++ count_lines (List.length (filter (matches_star_ext "mp4") dir))
                 failed (List.length L)
          \/ console (end_ st dir L)
             = failed_message
               ++ count_lines (List.length (filter (matches_star_ext "mp4") dir))
                    failed (List.length L))
  /\ (forall dir out,
        Forall (fun n => Py.endswith n ".mp4" = true) dir ->
        print_output st dir out
        = String Py.ESC "c" ++ "Completed: 0"
          ++ Py.nl ++ Py.nl ++ Py.concat_all out ++ Py.nl)
  /\ (forall dir out,
        print_output st dir out
        = print_output st (filter (fun n => negb (Py.endswith n ".mp4")) dir) out)
  /\ (forall dir out name,
        Py.endswith name ".mp4" = true ->
        print_output st (name :: dir) out = print_output st dir out)
  /\ (forall dir L,
        end_ st dir L = end_ st (filter (matches_star_ext "mp4") dir) L)
  /\ (forall w L filename,
        Forall2 (fun e e' => e' = e \/ Py.endswith (link_name e') ".mp4" = true)
          L (snd (_map_filename st w L filename)))
  /\ (forall L rnd ls k w,
        Downloader_init st L rnd ls k = Ok w ->
        ctx_merge_output_format (context w) = "mp4").
Proof.
  intros Hv.
  assert (Hdr : forall dir out,
            print_output st dir out
            = String Py.ESC "c" ++ "Completed: "
              ++ Py.str_of_nat (List.length (filter (matches_star_ext "mkv") dir))
              ++ Py.nl ++ Py.nl ++ Py.concat_all out ++ Py.nl).
  { intros dir out. unfold print_output, glob_names. rewrite Hv.
    now rewrite !append_assoc. }
  split; [exact Hdr|]. split; [|split; [|split; [|split; [|split; [|split]]]]].
  - intros dir L.
    destruct (end_cases st dir L) as [Hc Hf]. cbv zeta in Hc, Hf.
    rewrite Hv in Hc, Hf. unfold glob_names in Hc, Hf.
    eexists.
    destruct (Nat.eq_dec (List.length (filter (matches_star_ext "mp4") dir))
                (List.length L)) as [E|E].
    + left. rewrite (Hc E). reflexivity.
    + right. rewrite (Hf E). reflexivity.
  - intros dir out Hall. rewrite Hdr.
    rewrite (filter_none (matches_star_ext "mkv") dir); [reflexivity|].
    intros n Hn. rewrite Forall_forall in Hall.
    apply mp4_not_counted_as_mkv, Hall, Hn.
  - intros dir out. apply print_output_reads_matching. rewrite Hv.
    intros n Hn. destruct (Py.endswith n ".mp4") eqn:E; [|reflexivity].
    apply mp4_not_counted_as_mkv in E. congruence.
  - intros dir out name Hn. unfold print_output, glob_names. rewrite Hv. simpl.
    now rewrite (mp4_not_counted_as_mkv name Hn).
  - intros dir L. rewrite (end_reads_matching st dir L). now rewrite Hv.
  - intros w L filename. now apply map_filename_sets_mp4.
  - intros L rnd ls k w H. unfold Downloader_init in H.
    destruct (_select_format st); [|discriminate].
    simpl in H. inversion H. reflexivity.
Qed.

Lemma header_counts_mkv_others_mp4_witness :
  print_output settings_ex ["a.mp4"; "b.mkv"; "c.mkv"] ["slot"]
  = String Py.ESC "c" ++ "Completed: 2" ++ Py.nl ++ Py.nl ++ "slot" ++ Py.nl.
Proof.
  exact (proj1 (header_counts_mkv_others_mp4 settings_ex eq_refl)
           ["a.mp4"; "b.mkv"; "c.mkv"] ["slot"]).
Defined.

(* ================================================================== *)
(** * Further properties of the code *)

(* ------------------------------------------------------------------ *)
(** ** Time-left formatting outside one day *)

Lemma count_char_app (c : ascii) (a b : string) :
  count_char c (a ++ b) = count_char c a + count_char c b.
Proof. induction a as [|x a IH]; simpl; [reflexivity | rewrite IH; lia]. Qed.

Lemma digits_no_colon (d : Decimal.uint) :
  count_char ":" (NilEmpty.string_of_uint d) = 0.
Proof. induction d; simpl; auto. Qed.

Lemma str_of_nat_no_colon (n : nat) : count_char ":" (Py.str_of_nat n) = 0.
Proof. apply digits_no_colon. Qed.

Lemma str_of_Z_no_colon (z : Z) : count_char ":" (Py.str_of_Z z) = 0.
Proof.
  unfold Py.str_of_Z. destruct (z <? 0)%Z; simpl; apply str_of_nat_no_colon.
Qed.

(** [int] refuses a text that holds a space. *)
Lemma int_refuses_space (s : string) :
  count_char " " s <> 0 -> Py.int s = Raise ValueError.
Proof.
  intros H.
  assert (E : NilEmpty.uint_of_string s = None).
  { induction s as [|a s IH]; simpl in *; [contradiction|].
    destruct (Ascii.eqb_spec a " ") as [-> | Hne].
    - now destruct (NilEmpty.uint_of_string s).
    - rewrite IH; [reflexivity | exact H]. }
  unfold Py.int, NilZero.uint_of_string. destruct s; [reflexivity|].
  now rewrite E.
Qed.

(** X1. For every ETA from zero to one day, one day excluded,
    [_parse_time] returns the hours, minutes and seconds of the ETA, each
    with its unit in the singular or the plural, the zero ones left out,
    followed by [left]; the text is empty exactly when the ETA is zero. *)
Theorem parse_time_formats_below_one_day (eta : Z) :
  (0 <= eta < 86400)%Z ->
  _parse_time (timedelta_of_seconds eta) = Ok (spec_time_left (Z.to_nat eta))
  /\ (spec_time_left (Z.to_nat eta) = "" <-> eta = 0%Z).
Proof.
  intros H. split; [now apply parse_time_below_one_day|].
  unfold spec_time_left.
  destruct (Nat.eqb_spec (Z.to_nat eta) 0) as [E|E].
  - split; [lia | reflexivity].
  - split; [|lia]. intros F. exfalso.
    assert (T : Py.truthy
                  (spec_unit (Z.to_nat eta / 3600) "hour"
                   ++ spec_unit ((Z.to_nat eta / 60) mod 60) "minute"
                   ++ spec_unit (Z.to_nat eta mod 60) "second" ++ "left") = true).
    { rewrite !truthy_app. simpl. now rewrite !orb_true_r. }
    rewrite F in T. discriminate T.
Qed.

Lemma parse_time_formats_below_one_day_witness :
  _parse_time (timedelta_of_seconds 3661)
  = Ok (spec_time_left (Z.to_nat 3661)).
Proof.
  apply (parse_time_formats_below_one_day 3661). lia.
Defined.

#[local] Opaque Nat.div Nat.modulo.

(** X2. For every ETA of one day or more, and for every negative ETA,
    for which the [timedelta] is built (its days are within 999999999),
    [_parse_time] raises [ValueError]: the text of the [timedelta] starts
    with its days, and the first field is not a number. *)
Theorem parse_time_raises_outside_one_day (eta : Z) :
  (eta < 0 \/ 86400 <= eta)%Z ->
  timedelta_in_range eta ->
  _parse_time (timedelta_of_seconds eta) = Raise ValueError.
Proof.
  intros H _. unfold _parse_time, timedelta_truthy, timedelta_str, timedelta_of_seconds.
  cbn [td_days td_seconds].
  assert (Hd : (eta / 86400 <> 0)%Z).
  { intros E. apply Z.div_small_iff in E; lia. }
  assert (Hs : (0 <= eta mod 86400 < 86400)%Z) by (apply Z.mod_pos_bound; lia).
  destruct (Z.eqb_spec (eta / 86400) 0) as [E|_]; [contradiction|].
  cbn [andb negb].
  set (n := Z.to_nat (eta mod 86400)).
  assert (Hn : (Z.of_nat n < 86400)%Z) by (unfold n; lia).
  assert (Hh : n / 60 / 60 < 60).
  { rewrite Nat.Div0.div_div. apply Nat.Div0.div_lt_upper_bound. lia. }
  assert (Hm : (n / 60) mod 60 < 60) by (apply Nat.mod_upper_bound; lia).
  assert (Hsec : n mod 60 < 60) by (apply Nat.mod_upper_bound; lia).
  destruct (time_field_facts _ Hm) as (_ & Cm & _ & _).
  destruct (time_field_facts _ Hsec) as (_ & Cs & _ & _).
  set (pl := if (Z.abs (eta / 86400) =? 1)%Z then "" else "s").
  set (P := Py.str_of_Z (eta / 86400) ++ " day" ++ pl ++ ", "
            ++ Py.str_of_nat (n / 60 / 60)).
  assert (E : Py.str_of_Z (eta / 86400) ++ " day" ++ pl ++ ", "
              ++ Py.str_of_nat (n / 60 / 60) ++ ":"
              ++ Py.pad2 ((n / 60) mod 60) ++ ":" ++ Py.pad2 (n mod 60)
              = P ++ String ":" (Py.pad2 ((n / 60) mod 60)
                                 ++ String ":" (Py.pad2 (n mod 60)))).
  { unfold P. now rewrite !append_assoc. }
  rewrite E.
  assert (CP : count_char ":" P = 0).
  { unfold P. rewrite !count_char_app, str_of_Z_no_colon, str_of_nat_no_colon.
    unfold pl. now destruct (Z.abs (eta / 86400) =? 1)%Z. }
  rewrite (split_app_sep _ _ _ CP), (split_app_sep _ _ _ Cm), (split_no_sep _ _ Cs).
  rewrite (int_refuses_space P); [reflexivity|].
  unfold P. rewrite (count_char_app " " (Py.str_of_Z (eta / 86400))).
  simpl. lia.
Qed.

#[local] Transparent Nat.div Nat.modulo.

Lemma parse_time_raises_outside_one_day_witness :
  _parse_time (timedelta_of_seconds 200000) = Raise ValueError.
Proof.
  apply (parse_time_raises_outside_one_day 200000).
  - right. lia.
  - unfold timedelta_in_range. split; vm_compute; discriminate.
Defined.

(* ------------------------------------------------------------------ *)
(** ** The name and the cursor of [_map_filename] *)

Lemma take_app (a b : string) : Py.take (String.length a) (a ++ b) = a.
Proof. induction a as [|c a IH]; simpl; [now destruct b | now rewrite IH]. Qed.

Lemma hd_app_singleton {A} (d : A) (l : list A) (x : A) :
  l <> [] -> hd d (l ++ [x])%list = hd d l.
Proof. destruct l; [contradiction | reflexivity]. Qed.

(** [rsplit('.', 2)[0]] drops the last two components of a name. *)
Lemma rsplit2_head (base fid e : string) :
  count_char "." fid = 0 -> count_char "." e = 0 ->
  hd "" (Py.rsplit "." 2 (base ++ "." ++ fid ++ "." ++ e)) = base.
Proof.
  intros Hf He. cbn [Py.rsplit].
  replace (base ++ "." ++ fid ++ "." ++ e)
    with ((base ++ "." ++ fid) ++ String "." e)
    by (now rewrite !append_assoc).
  rewrite (rindex_last _ _ _ He), take_app.
  change (base ++ "." ++ fid) with (base ++ String "." fid).
  rewrite (rindex_last _ _ _ Hf), take_app. reflexivity.
Qed.

Lemma rsplit2_head_one_dot (base e : string) :
  count_char "." base = 0 -> count_char "." e = 0 ->
  hd "" (Py.rsplit "." 2 (base ++ "." ++ e)) = base.
Proof.
  intros Hb He. cbn [Py.rsplit].
  change (base ++ "." ++ e) with (base ++ String "." e).
  rewrite (rindex_last _ _ _ He), take_app, (rindex_none _ _ Hb). reflexivity.
Qed.

Lemma map_filename_uses_recorded_name (st : Settings) (w : Downloader)
    (L : Links) (filename : string) :
  Forall2 (fun a b => b = a \/ link_name b = recorded_name st filename)
    L (snd (_map_filename st w L filename)).
Proof.
  assert (R : forall l : Links,
            Forall2 (fun a b : LinkEntry =>
                       b = a \/ link_name b = recorded_name st filename) l l).
  { induction l; constructor; auto. }
  unfold _map_filename.
  destruct (current w <? List.length (links w)); [|apply R].
  destruct (nth_error (links w) (current w)) as [target|]; [|apply R].
  destruct (assign_first target _ L) as [L'|] eqn:E; [|apply R].
  apply assign_first_Some in E.
  destruct E as (l1 & l2 & e & -> & -> & _).
  simpl. apply Forall2_app; [apply R|].
  constructor; [|apply R]. right. reflexivity.
Qed.

(** X3. The name recorded for a file of the engine.  For a file name
    [base.fid.ext] (a format id and an extension, both without a dot) the
    name is [base.mp4], or [base.m4a] in audio mode, whatever [base] is;
    for a file name [base.ext] with no dot in [base] it is the same; so a
    title that holds a dot, in a file name without format id, loses what
    follows its last dot.  Every entry that a call of [_map_filename]
    changes gets this name. *)
Theorem recorded_name_of_engine_file (st : Settings) (base fid e : string) :
  count_char "." fid = 0 -> count_char "." e = 0 ->
  let ext := if novideo st then "m4a" else "mp4" in
  recorded_name st (base ++ "." ++ fid ++ "." ++ e) = base ++ "." ++ ext
  /\ (count_char "." base = 0 ->
      recorded_name st (base ++ "." ++ e) = base ++ "." ++ ext)
  /\ (forall w L,
        Forall2 (fun a b => b = a \/ link_name b = base ++ "." ++ ext)
          L (snd (_map_filename st w L (base ++ "." ++ fid ++ "." ++ e)))).
Proof.
  intros Hf He ext.
  assert (E1 : recorded_name st (base ++ "." ++ fid ++ "." ++ e) = base ++ "." ++ ext).
  { unfold recorded_name. now rewrite rsplit2_head. }
  split; [exact E1|]. split.
  - intros Hb. unfold recorded_name. now rewrite rsplit2_head_one_dot.
  - intros w L. rewrite <- E1. apply map_filename_uses_recorded_name.
Qed.

Lemma recorded_name_of_engine_file_witness :
  recorded_name settings_ex "My.Video.f137.mp4" = "My.Video.mp4"
  /\ recorded_name settings_ex "My.Video.mp4" = "My.mp4".
Proof.
  split.
  - exact (proj1 (recorded_name_of_engine_file settings_ex "My.Video" "f137" "mp4"
                    eq_refl eq_refl)).
  - exact (proj1 (recorded_name_of_engine_file settings_ex "My" "Video" "mp4"
                    eq_refl eq_refl)).
Defined.

Lemma resolved_count_app (l1 l2 : Links) :
  resolved_count (l1 ++ l2)%list = resolved_count l1 + resolved_count l2.
Proof. unfold resolved_count. now rewrite filter_app, length_app. Qed.

Lemma assign_first_resolves_one (target name : string) (L L' : Links) :
  Py.truthy name = true ->
  assign_first target name L = Some L' ->
  resolved_count L' = resolved_count L + 1.
Proof.
  intros T H. apply assign_first_Some in H.
  destruct H as (l1 & l2 & e & -> & -> & _ & F & _).
  rewrite !resolved_count_app. unfold resolved_count at 2 4. simpl.
  rewrite T, F. simpl. lia.
Qed.

(** The worker and the link list after one call of [_map_filename]. *)
Lemma map_filename_step_facts (st : Settings) (w : Downloader) (L : Links)
    (filename : string) :
  let w' := fst (_map_filename st w L filename) in
  let L' := snd (_map_filename st w L filename) in
  links w' = links w /\ pos w' = pos w
  /\ current w <= current w' <= current w + 1
  /\ (current w <= List.length (links w) -> current w' <= List.length (links w))
  /\ resolved_count L' = resolved_count L + (current w' - current w)
  /\ (current w' = current w -> L' = L).
Proof.
  unfold _map_filename.
  destruct (Nat.ltb_spec (current w) (List.length (links w))) as [Hlt|Hge];
    [|simpl; repeat split; auto; lia].
  destruct (nth_error (links w) (current w)) as [target|];
    [|simpl; repeat split; auto; lia].
  destruct (assign_first target _ L) as [L'|] eqn:E;
    [|simpl; repeat split; auto; lia].
  apply assign_first_resolves_one in E; [|apply truthy_mapped_name].
  simpl. repeat split; lia.
Qed.

(** X4. One call of [_map_filename] keeps the links and the slot of the
    worker; the cursor stays or advances by one, and never passes the end
    of the partition; the number of links that have a name grows by as
    much as the cursor advances; and when the cursor stays the link list
    is unchanged. *)
Theorem map_filename_cursor_step (st : Settings) (w : Downloader) (L : Links)
    (filename : string) :
  let w' := fst (_map_filename st w L filename) in
  let L' := snd (_map_filename st w L filename) in
  links w' = links w /\ pos w' = pos w
  /\ current w <= current w' <= current w + 1
  /\ (current w <= List.length (links w) -> current w' <= List.length (links w))
  /\ resolved_count L' = resolved_count L + (current w' - current w)
  /\ (current w' = current w -> L' = L).
Proof.
  intros w' L'.
  destruct (map_filename_step_facts st w L filename) as (H1 & H2 & H3 & H4 & H5 & H6).
  repeat split; solve [assumption | apply H3].
Qed.

(* ------------------------------------------------------------------ *)
(** ** The hook and the slots of [output] *)

Lemma list_set_Ok {A} (l : list A) (i : nat) (v : A) :
  i < List.length l -> exists l', Py.list_set l i v = Ok l'.
Proof.
  revert i. induction l as [|a l IH]; intros i H; simpl in *; [lia|].
  destruct i as [|i]; [eauto|].
  destruct (IH i) as [l' E]; [lia|]. rewrite E. simpl. eauto.
Qed.

Lemma list_set_spec {A} (l l' : list A) (i : nat) (v : A) :
  Py.list_set l i v = Ok l' ->
  i < List.length l /\ List.length l' = List.length l
  /\ nth_error l' i = Some v
  /\ (forall j, j <> i -> nth_error l' j = nth_error l j).
Proof.
  revert i l'. induction l as [|a l IH]; intros i l' H; simpl in H; [discriminate|].
  destruct i as [|i].
  - inversion H; subst. simpl. repeat split; try lia.
    intros [|j] Hj; [contradiction | reflexivity].
  - destruct (Py.list_set l i v) as [l2|] eqn:E; [|discriminate].
    simpl in H. inversion H; subst.
    destruct (IH i l2 E) as (H1 & H2 & H3 & H4).
    simpl. repeat split; try lia; [exact H3|].
    intros [|j] Hj; [reflexivity|]. simpl. apply H4. lia.
Qed.

Lemma list_set_Raise {A} (l : list A) (i : nat) (v : A) (x : exn) :
  Py.list_set l i v = Raise x -> List.length l <= i.
Proof.
  intros H. destruct (Nat.le_gt_cases (List.length l) i) as [Hle|Hlt]; [exact Hle|].
  destruct (list_set_Ok l i v Hlt) as [l' E]. congruence.
Qed.

(** What a call of the hook leaves, in all its cases. *)
Lemma my_hook_cases (st : Settings) (dir : Dir) (w : Downloader) (sh : Shared)
    (e : Event) :
  let w' := fst (fst (_my_hook st dir w sh e)) in
  let sh' := snd (fst (_my_hook st dir w sh e)) in
  (w' = w /\ sh' = sh)
  \/ (String.eqb (ev_status e) "downloading" = true
      /\ (exists s, short_filename (ev_filename e) = Ok s)
      /\ (exists t, _parse_time (timedelta_of_seconds (ev_eta e)) = Ok t)
      /\ (exists stt, ev_stats e = Ok stt)
      /\ w' = fst (_map_filename st w (all_links sh) (ev_filename e))
      /\ all_links sh' = snd (_map_filename st w (all_links sh) (ev_filename e))
      /\ (output sh' = output sh
          \/ exists block, Py.list_set (output sh) (pos w) block = Ok (output sh'))).
Proof.
  unfold _my_hook.
  destruct (String.eqb (ev_status e) "downloading"); [|left; auto].
  destruct (short_filename (ev_filename e)) as [s|]; [|left; auto].
  destruct (_parse_time (timedelta_of_seconds (ev_eta e))) as [t|]; [|left; auto].
  destruct (ev_stats e) as [stt|]; [|left; auto].
  cbn [bind]. right.
  destruct (_map_filename st w (all_links sh) (ev_filename e)) as [w1 L1].
  destruct (Py.list_set (output sh) (pos w) (progress_block s t stt)) as [o|] eqn:E;
    cbn [fst snd all_links output]; repeat split; eauto.
Qed.

(** What a call of the hook writes and keeps. *)
Lemma my_hook_facts (st : Settings) (dir : Dir) (w : Downloader)
    (sh : Shared) (e : Event) :
  let w' := fst (fst (_my_hook st dir w sh e)) in
  let sh' := snd (fst (_my_hook st dir w sh e)) in
  List.length (output sh') = List.length (output sh)
  /\ (forall j, j <> pos w -> nth_error (output sh') j = nth_error (output sh) j)
  /\ links w' = links w /\ pos w' = pos w
  /\ ((w' <> w \/ sh' <> sh) ->
      ev_status e = "downloading"
      /\ (exists s t stt,
            short_filename (ev_filename e) = Ok s
            /\ _parse_time (timedelta_of_seconds (ev_eta e)) = Ok t
            /\ ev_stats e = Ok stt)).
Proof.
  intros w' sh'.
  destruct (my_hook_cases st dir w sh e)
    as [[Ew Es] | (Hst & (s & Hs) & (t & Ht) & (stt & Hstt) & Ew & El & Ho)];
    fold w' in Ew; try fold sh' in Es; try fold sh' in El, Ho.
  - rewrite Ew, Es. repeat split; auto;
      match goal with F : _ \/ _ |- _ => destruct F; contradiction end.
  - destruct (map_filename_step_facts st w (all_links sh) (ev_filename e))
      as (Hl & Hp & _).
    rewrite <- Ew in Hl, Hp.
    assert (Hout : List.length (output sh') = List.length (output sh)
                   /\ forall j, j <> pos w ->
                        nth_error (output sh') j = nth_error (output sh) j).
    { destruct Ho as [-> | (block & Hb)]; [auto|].
      apply list_set_spec in Hb. destruct Hb as (_ & H2 & _ & H4). auto. }
    destruct Hout as [Ho1 Ho2].
    repeat split; auto.
    + now apply String.eqb_eq.
    + eauto 10.
Qed.

(** X5. A call of the hook writes no slot of [output] but the one of its
    worker and keeps the number of slots; it keeps the links and the slot
    index of the worker; and it changes the worker or the shared state
    only for a [downloading] event whose short name, time left and sizes
    can be computed. *)
Theorem my_hook_effects (st : Settings) (dir : Dir) (w : Downloader)
    (sh : Shared) (e : Event) :
  let w' := fst (fst (_my_hook st dir w sh e)) in
  let sh' := snd (fst (_my_hook st dir w sh e)) in
  List.length (output sh') = List.length (output sh)
  /\ (forall j, j <> pos w -> nth_error (output sh') j = nth_error (output sh) j)
  /\ links w' = links w /\ pos w' = pos w
  /\ ((w' <> w \/ sh' <> sh) ->
      ev_status e = "downloading"
      /\ (exists s t stt,
            short_filename (ev_filename e) = Ok s
            /\ _parse_time (timedelta_of_seconds (ev_eta e)) = Ok t
            /\ ev_stats e = Ok stt)).
Proof.
  intros w' sh'.
  destruct (my_hook_facts st dir w sh e) as (H1 & H2 & H3 & H4 & H5).
  repeat split; try assumption; now apply H5.
Qed.

(* ------------------------------------------------------------------ *)
(** ** What a run keeps *)

Lemma cursor_sum_list_set (ws ws' : list Downloader) (i : nat) (w w' : Downloader) :
  nth_error ws i = Some w -> Py.list_set ws i w' = Ok ws' ->
  cursor_sum ws' + current w = cursor_sum ws + current w'.
Proof.
  unfold cursor_sum. revert i ws'.
  induction ws as [|a ws IH]; intros i ws' Hn Hs; simpl in Hs; [discriminate|].
  destruct i as [|i]; simpl in Hn.
  - inversion Hn; inversion Hs; subst. simpl. lia.
  - destruct (Py.list_set ws i w') as [l2|] eqn:E; [|discriminate].
    simpl in Hs. inversion Hs; subst. simpl.
    specialize (IH i l2 Hn E). lia.
Qed.

Lemma map_list_set {B} (f : Downloader -> B) (ws ws' : list Downloader)
    (i : nat) (w w' : Downloader) :
  nth_error ws i = Some w -> Py.list_set ws i w' = Ok ws' -> f w' = f w ->
  map f ws' = map f ws.
Proof.
  revert i ws'.
  induction ws as [|a ws IH]; intros i ws' Hn Hs Hf; simpl in Hs; [discriminate|].
  destruct i as [|i]; simpl in Hn.
  - inversion Hn; inversion Hs; subst. simpl. now rewrite Hf.
  - destruct (Py.list_set ws i w') as [l2|] eqn:E; [|discriminate].
    simpl in Hs. inversion Hs; subst. simpl. f_equal. eapply IH; eauto.
Qed.

Lemma Forall_list_set (P : Downloader -> Prop) (ws ws' : list Downloader)
    (i : nat) (w' : Downloader) :
  Forall P ws -> P w' -> Py.list_set ws i w' = Ok ws' -> Forall P ws'.
Proof.
  revert i ws'.
  induction ws as [|a ws IH]; intros i ws' HF HP Hs; simpl in Hs; [discriminate|].
  inversion HF; subst.
  destruct i as [|i].
  - inversion Hs; subst. constructor; assumption.
  - destruct (Py.list_set ws i w') as [l2|] eqn:E; [|discriminate].
    simpl in Hs. inversion Hs; subst. constructor; [assumption|]. eapply IH; eauto.
Qed.

Lemma kept_refl (wd : World) : kept wd wd.
Proof. unfold kept. auto. Qed.

Lemma kept_trans (a b c : World) : kept a b -> kept b c -> kept a c.
Proof.
  unfold kept. intros (A1 & A2 & A3 & A4 & A5) (B1 & B2 & B3 & B4 & B5).
  repeat split; try congruence; auto. lia.
Qed.

Lemma hook_step_kept (st : Settings) (wd : World) (call : Call) :
  kept wd (hook_step st wd call).
Proof.
  unfold hook_step.
  destruct (nth_error (workers wd) (call_worker call)) as [w|] eqn:Hn;
    [|apply kept_refl].
  pose proof (my_hook_facts st (call_dir call) w (shared wd) (call_event call))
    as (Ho & _ & Hl & Hp & _).
  pose proof (my_hook_cases st (call_dir call) w (shared wd) (call_event call)) as C.
  destruct (_my_hook st (call_dir call) w (shared wd) (call_event call))
    as [[w' sh'] r].
  cbn [fst snd] in *.
  destruct (Py.list_set (workers wd) (call_worker call) w') as [ws|] eqn:Hs;
    [|apply kept_refl].
  pose proof (cursor_sum_list_set _ _ _ _ _ Hn Hs) as Hsum.
  unfold kept. cbn [workers shared].
  split; [exact (map_list_set links _ _ _ _ _ Hn Hs Hl)|].
  split; [exact (map_list_set pos _ _ _ _ _ Hn Hs Hp)|].
  split; [exact Ho|].
  destruct (map_filename_step_facts st w (all_links (shared wd))
              (ev_filename (call_event call))) as (_ & _ & Hc & Hb & Hr & _).
  destruct C as [[-> ->] | (_ & _ & _ & _ & -> & El & _)].
  - split; [|lia]. intros HF. eapply Forall_list_set; [exact HF | | exact Hs].
    eapply Forall_forall in HF; [exact HF|]. eapply nth_error_In; eauto.
  - rewrite El. split.
    + intros HF.
      assert (Hw : current w <= List.length (links w)).
      { eapply Forall_forall in HF; [exact HF|]. eapply nth_error_In; eauto. }
      eapply Forall_list_set; [exact HF | | exact Hs].
      cbn beta. rewrite Hl. auto.
    + lia.
Qed.

Lemma run_schedule_kept (st : Settings) (calls : list Call) :
  forall wd, kept wd (run_schedule st wd calls).
Proof.
  unfold run_schedule.
  induction calls as [|c calls IH]; intros wd; simpl.
  - apply kept_refl.
  - eapply kept_trans; [apply hook_step_kept | apply IH].
Qed.

Lemma Downloader_init_current (st : Settings) (L ls : Links) (rnd : string)
    (k : nat) (w : Downloader) :
  Downloader_init st L rnd ls k = Ok w -> current w = 0.
Proof.
  unfold Downloader_init. destruct (_select_format st); [|discriminate].
  cbn [bind]. intros H. inversion H. reflexivity.
Qed.

Lemma build_workers_current (st : Settings) (L : Links) rnd :
  forall xs out ws out',
    build_workers st L rnd xs out = Ok (ws, out') ->
    Forall (fun w => current w = 0) ws.
Proof.
  induction xs as [|x xs IH]; intros out ws out' H; simpl in H.
  - inversion H. constructor.
  - destruct (Downloader_init st L (rnd x) _ x) as [w|] eqn:Ew; [|discriminate].
    cbn [bind] in H.
    destruct (build_workers st L rnd xs (out ++ [""])%list) as [[ws2 o2]|] eqn:Eb;
      [|discriminate].
    cbn [bind fst snd] in H. inversion H; subst.
    constructor; [eapply Downloader_init_current; eauto | eapply IH; eauto].
Qed.

(** The world in which the threads of [run] start. *)
Lemma run_start (st : Settings) (L : Links) rnd out calls wd :
  run st L rnd out calls = Ok wd ->
  exists ws,
    wd = run_schedule st
           {| workers := ws;
              shared := {| all_links := L;
                           output := (out ++ repeat "" (Z.to_nat (threads st)))%list |} |}
           calls
    /\ map links ws = partitions (Z.to_nat (threads st)) L
    /\ map pos ws = seq 0 (Z.to_nat (threads st))
    /\ Forall (fun w => current w = 0) ws.
Proof.
  unfold run. intros H.
  destruct (run_workers st L rnd out) as [[ws o]|] eqn:E; [|discriminate].
  cbn [bind fst snd] in H. inversion H; subst. clear H.
  pose proof E as E0. unfold run_workers in E0.
  pose proof (build_workers_current _ _ _ _ _ _ _ E0) as Hc.
  destruct ws as [|w0 ws0].
  - (* no worker: the thread count is not positive *)
    destruct (Z.to_nat (threads st)) as [|n] eqn:En.
    + simpl in E0. inversion E0; subst. exists []. rewrite app_nil_r.
      repeat split; auto.
    + simpl in E0.
      destruct (Downloader_init st L (rnd 0) _ 0); [|discriminate].
      cbn [bind] in E0.
      destruct (build_workers st L rnd (seq 1 n) (out ++ [""])%list) as [[ws1 o1]|];
        discriminate.
  - assert (Hf : exists fmt, _select_format st = Ok fmt).
    { destruct (Z.to_nat (threads st)) as [|n]; simpl in E0; [discriminate|].
      unfold Downloader_init in E0.
      destruct (_select_format st) as [fmt|]; [eauto | discriminate]. }
    destruct Hf as [fmt Hf].
    destruct (build_workers_ok st L rnd fmt Hf (seq 0 (Z.to_nat (threads st))) out)
      as (ws' & H1 & H2 & H3).
    rewrite H1 in E0. inversion E0; subst.
    exists (w0 :: ws0). rewrite length_seq. repeat split; auto.
Qed.

Lemma cursor_sum_zero (ws : list Downloader) :
  Forall (fun w => current w = 0) ws -> cursor_sum ws = 0.
Proof.
  unfold cursor_sum. induction 1 as [|w ws Hw _ IH]; simpl; [reflexivity | lia].
Qed.

Lemma cursor_sum_bound (ws : list Downloader) :
  Forall (fun w => current w <= List.length (links w)) ws ->
  cursor_sum ws <= List.length (List.concat (map links ws)).
Proof.
  unfold cursor_sum. induction 1 as [|w ws Hw _ IH]; simpl; [lia|].
  rewrite length_app. lia.
Qed.

Lemma length_concat_partitions (n : nat) (L : Links) :
  List.length (List.concat (partitions n L)) <= List.length L.
Proof.
  destruct n as [|n]; [simpl; lia|].
  rewrite (Permutation_length (partitions_Permutation (S n) L ltac:(lia))).
  now rewrite length_map.
Qed.

(** X6. At the end of every run over links with distinct URLs: the number
    of links that have a name is the number that had one at the start
    plus the sum of the cursors of the workers; no cursor has passed the
    end of its partition; the workers still hold the partitions; and the
    sum of the cursors is at most the number of links.  (With distinct
    URLs the workers write different entries, so taking their calls
    whole loses nothing.) *)
Theorem run_names_follow_cursors (st : Settings) (L : Links)
    (rnd : nat -> string) (out : list string) (calls : list Call) (wd : World) :
  NoDup (map link_url L) ->
  run st L rnd out calls = Ok wd ->
  resolved_count (all_links (shared wd)) = resolved_count L + cursor_sum (workers wd)
  /\ Forall (fun w => current w <= List.length (links w)) (workers wd)
  /\ map links (workers wd) = partitions (Z.to_nat (threads st)) L
  /\ cursor_sum (workers wd) <= List.length L.
Proof.
  intros _ H. destruct (run_start _ _ _ _ _ _ H) as (ws & -> & Hl & Hp & Hc).
  match goal with
  | |- context [run_schedule st ?w0 calls] =>
      destruct (run_schedule_kept st calls w0) as (K1 & K2 & K3 & K4 & K5)
  end.
  cbn [workers shared all_links output] in K1, K2, K3, K4, K5.
  rewrite (cursor_sum_zero ws Hc) in K5.
  assert (B : Forall (fun w => current w <= List.length (links w))
                (workers (run_schedule st
                   {| workers := ws;
                      shared := {| all_links := L;
                                   output := (out ++ repeat "" (Z.to_nat (threads st)))%list |} |}
                   calls))).
  { apply K4. eapply Forall_impl; [|exact Hc]. cbn beta. intros a Ha. lia. }
  split; [lia|]. split; [exact B|]. split; [congruence|].
  eapply Nat.le_trans; [apply cursor_sum_bound, B|].
  rewrite K1, Hl. apply length_concat_partitions.
Qed.

Lemma run_names_follow_cursors_witness :
  exists wd,
    run settings_one two_links (fun _ => "") [] [call_ex; call_ex] = Ok wd
    /\ resolved_count (all_links (shared wd))
       = resolved_count two_links + cursor_sum (workers wd).
Proof.
  eexists. split; [vm_compute; reflexivity|].
  apply (run_names_follow_cursors settings_one two_links (fun _ => "") []
           [call_ex; call_ex]).
  - repeat constructor; simpl; intuition discriminate.
  - vm_compute. reflexivity.
Defined.

(** X7. In every run each worker keeps the slot index that [run] gave it,
    the index of the worker, and [output] keeps the slots that [run]
    added; so at the end of the run the write of a hook into its slot is
    in range: a [downloading] event whose short name, time left and sizes
    can be computed ends with the repaint, not with [IndexError]. *)
Theorem run_slots_in_range (st : Settings) (L : Links) (rnd : nat -> string)
    (out : list string) (calls : list Call) (wd : World) :
  run st L rnd out calls = Ok wd ->
  map pos (workers wd) = seq 0 (Z.to_nat (threads st))
  /\ List.length (output (shared wd)) = List.length out + Z.to_nat (threads st)
  /\ (forall x w, nth_error (workers wd) x = Some w ->
        pos w = x /\ x < List.length (output (shared wd)))
  /\ (forall x w dir e s t stt,
        nth_error (workers wd) x = Some w ->
        ev_status e = "downloading" ->
        short_filename (ev_filename e) = Ok s ->
        _parse_time (timedelta_of_seconds (ev_eta e)) = Ok t ->
        ev_stats e = Ok stt ->
        exists txt, snd (_my_hook st dir w (shared wd) e) = Ok (Some txt)).
Proof.
  intros H. destruct (run_start _ _ _ _ _ _ H) as (ws & -> & Hl & Hp & Hc).
  match goal with
  | |- context [run_schedule st ?w0 calls] =>
      destruct (run_schedule_kept st calls w0) as (K1 & K2 & K3 & _);
      set (W := run_schedule st w0 calls) in *
  end.
  cbn [workers shared output] in K2, K3.
  rewrite length_app, repeat_length in K3.
  assert (Hpos : forall x w, nth_error (workers W) x = Some w ->
            pos w = x /\ x < List.length (output (shared W))).
  { intros x w Hx.
    assert (E : nth_error (map pos (workers W)) x = Some (pos w))
      by (now rewrite nth_error_map, Hx).
    rewrite K2, Hp, nth_error_seq in E.
    destruct (Nat.ltb_spec x (Z.to_nat (threads st))) as [Hlt|]; [|discriminate].
    simpl in E. inversion E. split; [reflexivity | lia]. }
  split; [congruence|]. split; [exact K3|]. split; [exact Hpos|].
  intros x w dir e s t stt Hx Hst Hs Ht Hstt.
  destruct (Hpos x w Hx) as [Hp1 Hp2].
  unfold _my_hook. rewrite Hst, Hs, Ht, Hstt, String.eqb_refl. cbn [bind].
  destruct (_map_filename st w (all_links (shared W)) (ev_filename e)) as [w1 L1].
  destruct (list_set_Ok (output (shared W)) (pos w) (progress_block s t stt))
    as [o Ho]; [lia|].
  rewrite Ho. cbn [snd]. eauto.
Qed.

Lemma run_slots_in_range_witness :
  exists wd,
    run settings_one two_links (fun _ => "") [] [call_ex] = Ok wd
    /\ List.length (output (shared wd)) = 0 + Z.to_nat (threads settings_one).
Proof.
  eexists. split; [vm_compute; reflexivity|].
  apply (run_slots_in_range settings_one two_links (fun _ => "") [] [call_ex]).
  vm_compute. reflexivity.
Defined.

(* ------------------------------------------------------------------ *)
(** ** Start-up of [run] *)

Lemma run_schedule_no_worker (st : Settings) (sh : Shared) (calls : list Call) :
  run_schedule st {| workers := []; shared := sh |} calls
  = {| workers := []; shared := sh |}.
Proof.
  unfold run_schedule. induction calls as [|c calls IH]; simpl; [reflexivity|].
  unfold hook_step at 2. cbn [workers]. rewrite nth_error_nil. exact IH.
Qed.

(** X8. With a thread count of zero or less [run] builds no worker, also
    when the resolution is unknown, and ends with the link list and
    [output] as they were, whatever the engine would have called. *)
Theorem run_without_threads (st : Settings) (L : Links) (rnd : nat -> string)
    (out : list string) (calls : list Call) :
  (threads st <= 0)%Z ->
  run st L rnd out calls
  = Ok {| workers := []; shared := {| all_links := L; output := out |} |}.
Proof.
  intros H. unfold run, run_workers.
  replace (Z.to_nat (threads st)) with 0 by lia.
  cbn [seq build_workers bind fst snd].
  now rewrite run_schedule_no_worker.
Qed.

Lemma run_without_threads_witness :
  run (mkSettings "unknown" "links.txt" "out/" 0 false "mp4" false false)
    two_links (fun _ => "") [] [call_ex]
  = Ok {| workers := []; shared := {| all_links := two_links; output := [] |} |}.
Proof.
  apply run_without_threads. simpl. lia.
Defined.

Lemma lookup_choices (k : string) :
  (In k res_choices -> exists r, lookup k resolutions = Ok r)
  /\ (~ In k res_choices -> lookup k resolutions = Raise KeyError).
Proof.
  split.
  - intros H. simpl in H.
    repeat (destruct H as [<- | H]; [eexists; reflexivity|]). contradiction.
  - intros H. unfold resolutions, lookup.
    repeat match goal with
           | |- context [String.eqb k ?s] =>
               destruct (String.eqb_spec k s) as [-> | _];
               [exfalso; apply H; simpl; tauto|]
           end.
    reflexivity.
Qed.

(** X9. [_select_format] answers for every resolution that the command
    line accepts, and in audio mode for any resolution; in video mode it
    raises [KeyError] for any other resolution, and then [run] raises
    [KeyError] as soon as it has a worker to build. *)
Theorem select_format_choices (st : Settings) :
  (novideo st = true -> exists f, _select_format st = Ok f)
  /\ (In (res st) res_choices -> exists f, _select_format st = Ok f)
  /\ (novideo st = false -> ~ In (res st) res_choices ->
      _select_format st = Raise KeyError
      /\ forall L rnd out calls,
           (1 <= threads st)%Z -> run st L rnd out calls = Raise KeyError).
Proof.
  split; [|split].
  - intros Hv. unfold _select_format. rewrite Hv. eauto.
  - intros Hin. unfold _select_format. destruct (novideo st); [eauto|].
    destruct (proj1 (lookup_choices (res st)) Hin) as [r ->]. cbn [bind]. eauto.
  - intros Hv Hn.
    assert (E : _select_format st = Raise KeyError).
    { unfold _select_format. rewrite Hv.
      now rewrite (proj2 (lookup_choices (res st)) Hn). }
    split; [exact E|].
    intros L rnd out calls Ht. unfold run, run_workers.
    destruct (Z.to_nat (threads st)) as [|n] eqn:En; [lia|].
    cbn [seq build_workers]. unfold Downloader_init. rewrite E. reflexivity.
Qed.

Lemma select_format_choices_witness :
  exists f, _select_format settings_ex = Ok f.
Proof.
  apply (proj1 (proj2 (select_format_choices settings_ex))).
  simpl. tauto.
Defined.

(* ------------------------------------------------------------------ *)
(** ** More on the end of a run *)

Lemma empty_name_not_globbed (dir : Dir) (ext : string) :
  Py.mem "" (glob_names dir ext) = false.
Proof.
  destruct (Py.mem "" (glob_names dir ext)) eqn:E; [|reflexivity].
  apply mem_In in E. unfold glob_names in E. apply filter_In in E.
  destruct E as [_ E]. unfold matches_star_ext in E. simpl in E. discriminate E.
Qed.

Lemma filter_all {A} (f : A -> bool) (l : list A) :
  (forall x, In x l -> f x = true) -> filter f l = l.
Proof.
  induction l as [|a l IH]; simpl; intros H; [reflexivity|].
  rewrite (H a (or_introl eq_refl)). f_equal. apply IH. intros x Hx. apply H. now right.
Qed.

(** X10. When no link has a name at the end of a run (the engine made no
    progress call, as when the files were already there), [end] counts
    every link as failed whatever the destination holds: with as many
    matching files as links it prints the success message with
    [Failed: n/n]; otherwise it writes every URL to the failure file. *)
Theorem end_without_names (st : Settings) (dir : Dir) (L : Links) :
  Forall (fun e => link_name e = "") L ->
  let d := List.length (glob_names dir (if novideo st then "m4a" else "mp4")) in
  let n := List.length L in
  (d = n ->
   end_ st dir L
   = {| console := complete_message ++ count_lines n n n; failed_txt := None |})
  /\ (d <> n ->
      end_ st dir L
      = {| console := failed_message ++ count_lines d n n;
           failed_txt :=
             Some (Py.concat_all (map (fun link => link_url link ++ Py.nl) L)) |}).
Proof.
  intros Hn d n.
  assert (F : filter (fun x => negb (Py.mem (link_name x)
                        (glob_names dir (if novideo st then "m4a" else "mp4")))) L = L).
  { apply filter_all. intros x Hx. rewrite Forall_forall in Hn.
    rewrite (Hn x Hx), empty_name_not_globbed. reflexivity. }
  destruct (end_cases st dir L) as [Hc Hf]. cbv zeta in Hc, Hf.
  rewrite F in Hc, Hf. fold d in Hc, Hf. fold n in Hc, Hf.
  split.
  - intros E. rewrite (Hc E). now rewrite E.
  - intros E. exact (Hf E).
Qed.

Lemma end_without_names_witness :
  end_ settings_ex ["u1.mp4"; "u2.mp4"] two_links
  = {| console := complete_message ++ count_lines 2 2 2; failed_txt := None |}.
Proof.
  apply (proj1 (end_without_names settings_ex ["u1.mp4"; "u2.mp4"] two_links
                  ltac:(repeat constructor))).
  reflexivity.
Defined.

Lemma concat_all_cons (x : string) (l : list string) :
  Py.concat_all (x :: l) = x ++ Py.concat_all l.
Proof.
  unfold Py.concat_all. destruct l; simpl; [now rewrite append_empty_r | reflexivity].
Qed.

(** Lines written one after the other, each closed by a newline, read
    back by [split] as the lines and one empty piece. *)
Lemma split_written_lines (us : list string) :
  Forall (fun u => count_char Py.LF u = 0) us ->
  Py.split Py.LF (Py.concat_all (map (fun u => u ++ Py.nl) us)) = (us ++ [""])%list.
Proof.
  induction 1 as [|u us Hu _ IH]; [reflexivity|].
  cbn [map]. rewrite concat_all_cons, append_assoc.
  change (Py.nl ++ Py.concat_all (map (fun u0 => u0 ++ Py.nl) us))
    with (String Py.LF (Py.concat_all (map (fun u0 => u0 ++ Py.nl) us))).
  now rewrite (split_app_sep _ _ _ Hu), IH.
Qed.

(** The pieces of a split hold no separator. *)
Lemma split_pieces_no_sep (c : ascii) (s : string) :
  Forall (fun x => count_char c x = 0) (Py.split c s).
Proof.
  induction s as [|a s IH]; simpl; [repeat constructor|].
  destruct (Ascii.eqb a c) eqn:E; [constructor; [reflexivity | exact IH]|].
  destruct (Py.split c s) as [|h t]; [repeat constructor; simpl; now rewrite E|].
  inversion IH; subst. constructor; [simpl; rewrite E; assumption | assumption].
Qed.

(** X11. The failure file read back as a link file.  The links that
    [parse_links] reads have no newline in their URLs, and a run keeps
    the URLs; for such links, [parse_links] on the failure file that
    [end] wrote gives the failed links in their order, with no name,
    followed by one entry with the empty URL. *)
Theorem failed_file_reads_back (st : Settings) (dir : Dir) (L : Links)
    (fs : Files) (path content : string) :
  Forall (fun e => count_char Py.LF (link_url e) = 0) L ->
  failed_txt (end_ st dir L) = Some content ->
  fs path = Some content ->
  parse_links fs path
  = Ok (map (fun e => mkLink (link_url e) "")
          (filter (fun x => negb (Py.mem (link_name x)
                     (glob_names dir (if novideo st then "m4a" else "mp4")))) L)
        ++ [mkLink "" ""])%list.
Proof.
  intros HL Hf Hfs.
  set (failed := filter (fun x => negb (Py.mem (link_name x)
                     (glob_names dir (if novideo st then "m4a" else "mp4")))) L).
  assert (Hc : content
               = Py.concat_all (map (fun u => u ++ Py.nl) (map link_url failed))).
  { destruct (end_cases st dir L) as [H1 H2]. cbv zeta in H1, H2.
    destruct (Nat.eq_dec
                (List.length (glob_names dir (if novideo st then "m4a" else "mp4")))
                (List.length L)) as [E|E].
    - rewrite (H1 E) in Hf. discriminate Hf.
    - rewrite (H2 E) in Hf. cbn [failed_txt] in Hf. inversion Hf.
      now rewrite map_map. }
  unfold parse_links. rewrite Hfs, Hc. f_equal.
  rewrite split_written_lines.
  - rewrite map_app, map_map. reflexivity.
  - apply Forall_map. unfold failed.
    rewrite Forall_forall in HL. apply Forall_forall.
    intros e He. apply filter_In in He. apply HL, He.
Qed.

Lemma failed_file_reads_back_witness :
  parse_links (fun _ => Some ("u2" ++ Py.nl)) "out/failed.txt"
  = Ok [mkLink "u2" ""; mkLink "" ""].
Proof.
  apply (failed_file_reads_back settings_ex ["v.mp4"]
           [mkLink "u1" "v.mp4"; mkLink "u2" ""]
           (fun _ => Some ("u2" ++ Py.nl)) "out/failed.txt" ("u2" ++ Py.nl)).
  - repeat constructor.
  - reflexivity.
  - reflexivity.
Defined.

Lemma hidden_not_matched (ext name : string) :
  Py.startswith name "." = true -> matches_star_ext ext name = false.
Proof. intros H. unfold matches_star_ext. now rewrite H. Qed.

(** X12. With random names the template of the engine starts with a dot
    after the destination, and the file that the engine writes from it,
    whatever its extension, is counted neither by the header of
    [print_output] nor by [end]: both read the destination as if the file
    were not there. *)
Theorem random_names_not_counted (st : Settings) (rnd : string) :
  pp st = true ->
  _generate_name st rnd = "." ++ rnd ++ ".%(ext)s"
  /\ (forall w L0 ls k,
        Downloader_init st L0 rnd ls k = Ok w ->
        ctx_outtmpl (context w) = destination st ++ "." ++ rnd ++ ".%(ext)s")
  /\ (forall e dir out L,
        print_output st (("." ++ rnd ++ "." ++ e) :: dir) out = print_output st dir out
        /\ end_ st (("." ++ rnd ++ "." ++ e) :: dir) L = end_ st dir L).
Proof.
  intros Hpp.
  assert (G : _generate_name st rnd = "." ++ rnd ++ ".%(ext)s")
    by (unfold _generate_name; now rewrite Hpp).
  split; [exact G|]. split.
  - intros w L0 ls k H. unfold Downloader_init in H.
    destruct (_select_format st); [|discriminate].
    cbn [bind] in H. inversion H. cbn [context ctx_outtmpl]. now rewrite G.
  - intros e dir out L.
    assert (M : forall ext, matches_star_ext ext ("." ++ rnd ++ "." ++ e) = false)
      by (intros ext; apply hidden_not_matched, (prefix_app "."%string)).
    split.
    + unfold print_output, glob_names. cbn [filter]. now rewrite M.
    + unfold end_, glob_names. cbn [filter]. now rewrite M.
Qed.

Lemma random_names_not_counted_witness :
  print_output (mkSettings "720p" "links.txt" "out/" 2 false "mp4" false true)
    [".aB3dE6gH9j.mp4"] []
  = print_output (mkSettings "720p" "links.txt" "out/" 2 false "mp4" false true) [] [].
Proof.
  exact (proj1 (proj2 (proj2
           (random_names_not_counted
              (mkSettings "720p" "links.txt" "out/" 2 false "mp4" false true)
              "aB3dE6gH9j" eq_refl)) "mp4" [] [] [])).
Defined.

(* ------------------------------------------------------------------ *)
(** ** The configuration *)

Lemma or_str_idem (a : option string) (b : string) :
  or_str a (or_str a b) = or_str a b.
Proof. unfold or_str. destruct a as [s|]; [destruct (Py.truthy s)|]; reflexivity. Qed.

Lemma or_int_idem (a : option Z) (b : Z) :
  or_int a (or_int a b) = or_int a b.
Proof. unfold or_int. destruct a as [z|]; [destruct (z =? 0)%Z|]; reflexivity. Qed.

Lemma merge_config_idem (file : ConfigFile) (options : Options) :
  merge_config (merge_config file options) options = merge_config file options.
Proof.
  unfold merge_config. cbn [c_res c_source c_destination c_threads c_novideo c_format].
  rewrite !or_str_idem, or_int_idem. f_equal.
  now destruct (o_novideo options), (c_novideo file).
Qed.

Lemma merge_config_no_option (file : ConfigFile) (o2 : Options) :
  o_res o2 = None -> o_source o2 = None -> o_destination o2 = None ->
  o_threads o2 = None -> o_format o2 = None -> o_novideo o2 = false ->
  merge_config file o2 = file.
Proof.
  intros H1 H2 H3 H4 H5 H6. unfold merge_config.
  rewrite H1, H2, H3, H4, H5, H6. now destruct file.
Qed.

(** X13. [--config] writes the merged values and returns nothing; doing
    it again with the same options writes the same file; a later call
    with no option and without [--config] leaves the file as it is and
    returns its values; and a thread count other than zero given with
    [--config] is the one that later call returns. *)
Theorem config_written_then_read (file : ConfigFile) (options : Options) :
  o_config options = true ->
  let file' := fst (config file options) in
  snd (config file options) = None
  /\ config file' options = (file', None)
  /\ (forall o2,
        o_config o2 = false ->
        o_res o2 = None -> o_source o2 = None -> o_destination o2 = None ->
        o_threads o2 = None -> o_format o2 = None -> o_novideo o2 = false ->
        config file' o2 = (file', Some (settings_of_file file' (o_nosub o2) (o_pp o2))))
  /\ (forall z, o_threads options = Some z -> z <> 0%Z -> c_threads file' = z).
Proof.
  intros Hc file'. unfold file', config. rewrite Hc. cbn [fst snd].
  split; [reflexivity|]. split; [now rewrite merge_config_idem|]. split.
  - intros o2 H0 H1 H2 H3 H4 H5 H6. rewrite H0.
    now rewrite (merge_config_no_option _ o2 H1 H2 H3 H4 H5 H6).
  - intros z Hz Hnz. unfold merge_config, or_int. cbn [c_threads]. rewrite Hz.
    destruct (Z.eqb_spec z 0); [contradiction | reflexivity].
Qed.

Lemma config_written_then_read_witness :
  c_threads (fst (config config_ex
     {| o_start := false; o_config := true; o_res := None; o_source := None;
        o_destination := None; o_threads := Some 8%Z; o_format := None;
        o_pp := false; o_nosub := false; o_novideo := false |})) = 8%Z.
Proof.
  apply (proj2 (proj2 (proj2 (config_written_then_read config_ex
     {| o_start := false; o_config := true; o_res := None; o_source := None;
        o_destination := None; o_threads := Some 8%Z; o_format := None;
        o_pp := false; o_nosub := false; o_novideo := false |} eq_refl)))).
  - reflexivity.
  - discriminate.
Defined.

(** What [config] returns without [--config]. *)
Lemma config_without_flag (file : ConfigFile) (options : Options) :
  o_config options = false ->
  config file options
  = (file, Some (settings_of_file (merge_config file options)
                   (o_nosub options) (o_pp options))).
Proof. intros H. unfold config. now rewrite H. Qed.

(** X14. Without [--config] the call leaves the file as it is and returns
    settings in which: [nosub] and [pp] are the flags of the command
    line; an option that is absent, an empty text or a thread count of
    zero gives way to the value of the file; and audio-only mode stored
    in the file stays on whatever the command line says. *)
Theorem config_falls_back (file : ConfigFile) (options : Options) :
  o_config options = false ->
  exists st,
    config file options = (file, Some st)
    /\ nosub st = o_nosub options /\ pp st = o_pp options
    /\ (o_threads options = None \/ o_threads options = Some 0%Z ->
        threads st = c_threads file)
    /\ (o_source options = None \/ o_source options = Some "" ->
        source st = c_source file)
    /\ (o_destination options = None \/ o_destination options = Some "" ->
        destination st = c_destination file)
    /\ (forall s, o_source options = Some s -> s <> "" -> source st = s)
    /\ (forall z, o_threads options = Some z -> z <> 0%Z -> threads st = z)
    /\ (c_novideo file = true -> novideo st = true).
Proof.
  intros Hc. unfold config. rewrite Hc. eexists. split; [reflexivity|].
  cbn [nosub pp threads source destination novideo merge_config
       c_threads c_source c_destination c_novideo].
  repeat split.
  - intros [-> | ->]; reflexivity.
  - intros [-> | ->]; reflexivity.
  - intros [-> | ->]; reflexivity.
  - intros s -> Hs. unfold or_str. destruct s; [contradiction | reflexivity].
  - intros z -> Hz. unfold or_int. destruct (Z.eqb_spec z 0); [contradiction | reflexivity].
  - intros ->. apply orb_true_r.
Qed.

Lemma config_falls_back_witness :
  exists st,
    config config_ex (set_start true no_options) = (config_ex, Some st)
    /\ threads st = 4%Z.
Proof.
  destruct (config_falls_back config_ex (set_start true no_options) eq_refl)
    as (st & H1 & _ & _ & H2 & _).
  exists st. split; [exact H1|]. rewrite H2; [reflexivity | now left].
Defined.

(* ------------------------------------------------------------------ *)
(** ** [main] *)

(** X15. [main] rewrites [config.json] only for [--config] without
    [--start]; with both flags, or with neither, it does nothing but
    print its error message; and with [--start] alone it never trips on
    the value that [config] returns. *)
Theorem main_dispatch (options : Options) (file : ConfigFile) (fs : Files)
    (rnd : nat -> string) (calls : list Call) (dir : Dir) :
  let o := main options file fs rnd calls dir in
  (outcome_file o <> file -> o_start options = false /\ o_config options = true)
  /\ (o_start options = false -> o_config options = true ->
      o = ConfigUpdated (merge_config file options)
            ("Config updated successfully!" ++ Py.nl))
  /\ (o_start options = true -> o_config options = true ->
      o = Invalid file invalid_both)
  /\ (o_start options = false -> o_config options = false ->
      o = Invalid file invalid_neither)
  /\ (o_start options = true -> o_config options = false ->
      (exists wd report, o = Downloaded file wd report)
      \/ (exists e, o = Crashed file (Uncaught e))).
Proof.
  intros o.
  assert (D : o_start options = true -> o_config options = false ->
              outcome_file o = file
              /\ ((exists wd report, o = Downloaded file wd report)
                  \/ (exists e, o = Crashed file (Uncaught e)))).
  { intros Hs Hc. unfold o, main, config. rewrite Hs, Hc. cbn [andb negb].
    destruct (parse_links fs _); [|simpl; eauto].
    destruct (run _ _ rnd [] calls); simpl; eauto. }
  split; [|split; [|split; [|split]]].
  - intros F.
    destruct (o_start options) eqn:Hs, (o_config options) eqn:Hc; auto;
      exfalso; apply F.
    + unfold o, main. now rewrite Hs, Hc.
    + now apply D.
    + unfold o, main. now rewrite Hs, Hc.
  - intros Hs Hc. unfold o, main, config. now rewrite Hs, Hc.
  - intros Hs Hc. unfold o, main. now rewrite Hs, Hc.
  - intros Hs Hc. unfold o, main. now rewrite Hs, Hc.
  - intros Hs Hc. now apply D.
Qed.

(** A run keeps the number of links and their URLs. *)
Lemma run_keeps_urls (st : Settings) (calls : list Call) (L : Links) rnd out wd' :
  run st L rnd out calls = Ok wd' ->
  List.length (all_links (shared wd')) = List.length L
  /\ map link_url (all_links (shared wd')) = map link_url L.
Proof.
  intros H.
  destruct (run_start _ _ _ _ _ _ H) as (ws & -> & _).
  match goal with
  | |- context [run_schedule st ?w calls] =>
      destruct (entry_step_facts _ _ (run_schedule_links st calls w)) as (U & _)
  end.
  cbn [shared all_links] in U.
  split; [|exact U].
  rewrite <- (length_map link_url), U. apply length_map.
Qed.

(** X16. A download by [main].  The links come from the file named by the
    merged settings: there are as many as the file has newlines, plus
    one, and their URLs at the end are the pieces of the file; the report
    is the one of [end] for them; and the success message is printed (no
    failure file is written) exactly when the destination holds as many
    matching files as the file has newlines, plus one. *)
Theorem main_download_report (options : Options) (file : ConfigFile) (fs : Files)
    (rnd : nat -> string) (calls : list Call) (dir : Dir)
    (file' : ConfigFile) (wd : World) (report : EndReport) :
  main options file fs rnd calls dir = Downloaded file' wd report ->
  exists st content,
    config file options = (file, Some st)
    /\ file' = file
    /\ fs (source st) = Some content
    /\ map link_url (all_links (shared wd)) = Py.split Py.LF content
    /\ List.length (all_links (shared wd)) = S (count_char Py.LF content)
    /\ report = end_ st dir (all_links (shared wd))
    /\ (failed_txt report = None <->
        List.length (glob_names dir (if novideo st then "m4a" else "mp4"))
        = S (count_char Py.LF content)).
Proof.
  unfold main. intros H.
  destruct (o_start options && negb (o_config options)) eqn:B.
  - apply andb_prop in B. destruct B as [_ B]. apply negb_true_iff in B.
    pose proof (config_without_flag file options B) as Hcfg.
    set (st := settings_of_file (merge_config file options)
                 (o_nosub options) (o_pp options)) in *.
    rewrite Hcfg in H.
    destruct (parse_links fs (source st)) as [L0|] eqn:Hp; [|discriminate].
    destruct (run st L0 rnd [] calls) as [wd0|] eqn:Hr; [|discriminate].
    inversion H; subst. clear H.
    unfold parse_links in Hp.
    destruct (fs (source st)) as [content|] eqn:Hfs; [|discriminate].
    inversion Hp; subst. clear Hp.
    destruct (run_keeps_urls st calls _ _ _ _ Hr) as (Hlen & Hurl).
    assert (U : map link_url (all_links (shared wd)) = Py.split Py.LF content).
    { rewrite Hurl, map_map. cbn [link_url]. apply map_id. }
    assert (N : List.length (all_links (shared wd)) = S (count_char Py.LF content)).
    { rewrite Hlen, length_map. apply length_split. }
    exists st, content. repeat split; auto.
    + intros F. destruct (end_cases st dir (all_links (shared wd))) as [_ Hf].
      cbv zeta in Hf.
      destruct (Nat.eq_dec
                  (List.length (glob_names dir (if novideo st then "m4a" else "mp4")))
                  (List.length (all_links (shared wd)))) as [E|E]; [congruence|].
      rewrite (Hf E) in F. discriminate F.
    + intros E. destruct (end_cases st dir (all_links (shared wd))) as [Hc _].
      cbv zeta in Hc. rewrite Hc; [reflexivity | congruence].
  - destruct (negb (o_start options) && o_config options); [discriminate|].
    destruct (o_start options && o_config options); discriminate.
Qed.

Lemma main_download_report_witness :
  exists st content,
    config config_ex (set_start true no_options) = (config_ex, Some st)
    /\ source st = "links.txt"
    /\ content = "u1" ++ Py.nl.
Proof.
  destruct (main_download_report (set_start true no_options) config_ex
              (fun _ => Some ("u1" ++ Py.nl)) (fun _ => "") [] []
              _ _ _ eq_refl)
    as (st & content & H1 & _ & H3 & _).
  exists st, content. split; [exact H1|].
  split.
  - cbv in H1. inversion H1. reflexivity.
  - cbv beta in H3. inversion H3. reflexivity.
Defined.

(* ------------------------------------------------------------------ *)
(** ** The logger *)

Lemma fold_log_call (calls : list LogCall) :
  forall lg,
    log_file (fold_left log_call calls lg)
    = log_file lg ++ Py.concat_all (map log_line (filter log_written calls)).
Proof.
  induction calls as [|c calls IH]; intros lg; cbn [fold_left filter map].
  - unfold Py.concat_all. simpl. now rewrite append_empty_r.
  - rewrite IH. destruct c as [msg|msg|msg]; cbn [log_call log_written].
    + unfold debug. destruct (negb (Py.contains "ETA" msg)); cbn [log_file map log_line];
        [now rewrite concat_all_cons, !append_assoc | reflexivity].
    + unfold warning. cbn [log_file map log_line].
      now rewrite concat_all_cons, !append_assoc.
    + unfold error. cbn [log_file map log_line].
      now rewrite concat_all_cons, !append_assoc.
Qed.

(** X17. The log after any sequence of logger calls is the log before,
    followed by the lines of the calls in their order, each closed by a
    newline, without the debug lines that hold [ETA]; so the log only
    grows, a fresh log starts empty, and debug lines that all hold [ETA]
    leave it as it is. *)
Theorem logger_appends (lg : CustomLogger) (calls : list LogCall) :
  log_file (fold_left log_call calls lg)
  = log_file lg ++ Py.concat_all (map log_line (filter log_written calls))
  /\ String.length (log_file lg)
     <= String.length (log_file (fold_left log_call calls lg))
  /\ log_file (fold_left log_call calls CustomLogger_init)
     = Py.concat_all (map log_line (filter log_written calls))
  /\ (Forall (fun c => exists msg, c = LogDebug msg /\ Py.contains "ETA" msg = true)
        calls ->
      fold_left log_call calls lg = lg).
Proof.
  split; [apply fold_log_call|]. split; [|split].
  - rewrite fold_log_call, length_append. lia.
  - now rewrite fold_log_call.
  - intros H. revert lg. induction H as [|c calls (msg & -> & Hm) _ IH]; intros lg;
      cbn [fold_left]; [reflexivity|].
    cbn [log_call]. unfold debug. rewrite Hm. cbn [negb]. apply IH.
Qed.

(* ------------------------------------------------------------------ *)
(** ** The subtitle-disable flag *)

Lemma Downloader_init_nosub (b : bool) (st : Settings) (L ls : Links)
    (rnd : string) (k : nat) :
  Downloader_init (set_nosub b st) L rnd ls k = Downloader_init st L rnd ls k.
Proof. reflexivity. Qed.

Lemma build_workers_nosub (b : bool) (st : Settings) (L : Links) rnd :
  forall xs out,
    build_workers (set_nosub b st) L rnd xs out = build_workers st L rnd xs out.
Proof.
  induction xs as [|x xs IH]; intros out; cbn [build_workers]; [reflexivity|].
  now rewrite IH.
Qed.

Lemma run_schedule_nosub (b : bool) (st : Settings) (calls : list Call) :
  forall wd, run_schedule (set_nosub b st) wd calls = run_schedule st wd calls.
Proof.
  unfold run_schedule. induction calls as [|c calls IH]; intros wd; cbn [fold_left];
    [reflexivity|].
  now rewrite IH.
Qed.

(** X18. The value of [nosub] has no effect on the workers that are
    built, on a run, on the text of [print_output] or on the report of
    [end]: no function reads it. *)
Theorem nosub_has_no_effect (b : bool) (st : Settings) :
  (forall L rnd ls k,
      Downloader_init (set_nosub b st) L rnd ls k = Downloader_init st L rnd ls k)
  /\ (forall L rnd out calls,
        run (set_nosub b st) L rnd out calls = run st L rnd out calls)
  /\ (forall dir out, print_output (set_nosub b st) dir out = print_output st dir out)
  /\ (forall dir L, end_ (set_nosub b st) dir L = end_ st dir L).
Proof.
  split; [intros; apply Downloader_init_nosub|]. split; [|split; reflexivity].
  intros L rnd out calls. unfold run, run_workers.
  rewrite build_workers_nosub.
  change (threads (set_nosub b st)) with (threads st).
  destruct (build_workers st L rnd (seq 0 (Z.to_nat (threads st))) out) as [r|];
    [|reflexivity].
  cbn [bind]. now rewrite run_schedule_nosub.
Qed.

(* ------------------------------------------------------------------ *)
(** ** When the short name fails *)

Lemma rindex_None_count (c : ascii) (s : string) :
  Py.rindex c s = None -> count_char c s = 0.
Proof.
  induction s as [|a s IH]; simpl; [reflexivity|].
  destruct (Py.rindex c s); [discriminate|].
  destruct (Ascii.eqb a c); [discriminate|]. intros _. now apply IH.
Qed.

(** X19. [short_filename] raises exactly for the names of 25 characters
    or more that hold no dot, and then it raises [ValueError]; for every
    other name it returns a text, which for a name of 25 characters or
    more starts with the first 25 characters of the name followed by
    three dots. *)
Theorem short_filename_fails_without_dot (filename : string) :
  (forall x, short_filename filename = Raise x ->
     x = ValueError /\ 25 <= String.length filename /\ count_char "." filename = 0)
  /\ (25 <= String.length filename -> count_char "." filename = 0 ->
      short_filename filename = Raise ValueError)
  /\ (forall s, short_filename filename = Ok s -> 25 <= String.length filename ->
        exists tail, s = Py.take 25 filename ++ "..." ++ tail).
Proof.
  unfold short_filename.
  destruct (Nat.ltb_spec (String.length filename) 25) as [Hlt|Hge].
  - repeat split; try discriminate; lia.
  - destruct (Py.rindex "." filename) as [i|] eqn:R.
    + split; [intros x F; discriminate F|]. split.
      * intros _ C. rewrite (rindex_none _ _ C) in R. discriminate R.
      * intros s E _. inversion E. eexists. reflexivity.
    + split; [|split].
      * intros x E. inversion E. repeat split; [exact Hge | now apply rindex_None_count].
      * reflexivity.
      * intros s E. discriminate E.
Qed.

(* ------------------------------------------------------------------ *)
(** ** The sizes of the partitions *)

Lemma length_every_bounds {A} (n : nat) (l : list A) (x : nat) :
  1 <= n ->
  List.length l <= x + List.length (Py.every x n l) * n
  /\ (0 < List.length (Py.every x n l) ->
      x + (List.length (Py.every x n l) - 1) * n < List.length l).
Proof.
  intros Hn. split.
  - apply nth_error_None. rewrite <- (nth_error_every n Hn).
    apply nth_error_None. lia.
  - intros Hpos. apply nth_error_Some. rewrite <- (nth_error_every n Hn).
    apply nth_error_Some. lia.
Qed.

(** X20. The partitions of [run] are balanced: of two workers the one
    with the smaller index has as many links as the other or one more,
    and the sizes add up to the number of links. *)
Theorem partitions_balanced (n : nat) (L : Links) :
  1 <= n ->
  (forall x y px py,
      nth_error (partitions n L) x = Some px ->
      nth_error (partitions n L) y = Some py ->
      x <= y ->
      List.length py <= List.length px <= List.length py + 1)
  /\ list_sum (map (@List.length string) (partitions n L)) = List.length L.
Proof.
  intros Hn. split.
  - intros x y px py Hx Hy Hxy.
    apply nth_error_partitions in Hx. destruct Hx as [Hxn ->].
    apply nth_error_partitions in Hy. destruct Hy as [Hyn ->].
    rewrite !length_map. unfold Py.slice_step.
    destruct (length_every_bounds n L x Hn) as [X1 X2].
    destruct (length_every_bounds n L y Hn) as [Y1 Y2].
    set (mx := List.length (Py.every x n L)) in *.
    set (my := List.length (Py.every y n L)) in *.
    split.
    + destruct (Nat.le_gt_cases my mx) as [|Hgt]; [assumption|].
      exfalso. assert (P : 0 < my) by lia. specialize (Y2 P).
      assert ((mx + 1) * n <= my * n) by (apply Nat.mul_le_mono_r; lia).
      nia.
    + destruct (Nat.le_gt_cases mx (my + 1)) as [|Hgt]; [assumption|].
      exfalso. assert (P : 0 < mx) by lia. specialize (X2 P).
      assert ((my + 1) * n <= (mx - 1) * n) by (apply Nat.mul_le_mono_r; lia).
      nia.
  - rewrite <- length_concat.
    rewrite (Permutation_length (partitions_Permutation n L Hn)).
    apply length_map.
Qed.

Lemma partitions_balanced_witness :
  list_sum (map (@List.length string) (partitions 2 two_links)) = 2.
Proof.
  exact (proj2 (partitions_balanced 2 two_links ltac:(lia))).
Defined.
